(** * Expense tracker: the storage operations of [main_async.py]

    A shallow embedding of the five tool functions [add_expense],
    [update_expense], [delete_expense], [list_expenses] and [summarize],
    together with [init_db], over an explicit model of the SQLite file
    they share.

    Conventions of the embedding.
    - A Python [str] is a [string] of bytes (its UTF-8 encoding); SQLite
      compares TEXT with the BINARY collation, which is [String.eqb] and
      [String.leb] on those bytes.
    - [real] is the type of SQLite REAL values (IEEE doubles other than NaN,
      which SQLite stores as NULL).  It is a parameter, and so is the
      aggregate [sql_sum] that the engine computes for [SUM(amount)].
    - Arguments are typed as the schema types them: dates, categories,
      subcategories and notes are strings, amounts are reals; the
      parameters that default to [None] in the source are options.
    - Each tool opens a connection of its own; what it executes is seen
      inside the connection and reaches the file when it commits.  A
      storage failure is an exception, carried as its description
      [str(e)]. *)

From Stdlib Require Import ZArith List String Ascii Bool Lia.
From Stdlib Require Import Permutation Sorted.
Import ListNotations.
Open Scope string_scope.
Open Scope list_scope.
Open Scope Z_scope.

(** ** Exceptions and the storage layer *)

(** [try: ... except Exception as e: ...] delivers either a value or the
    description [str(e)] of the exception raised. *)
Inductive outcome (A : Type) : Type :=
| Return (a : A)
| Raise (e : string).
Arguments Return {A} a.
Arguments Raise {A} e.

(** Where the storage layer fails, and with which description: when
    opening the connection, when executing the statement, when
    committing. *)
Record storage : Type := mkStorage {
  connect_error : option string;
  execute_error : option string;
  commit_error : option string
}.

Definition healthy : storage := mkStorage None None None.

(** [str.lower], as far as the test for "readonly" can see it: the ASCII
    capitals are lowered and every other byte is kept (no character
    outside ASCII lowers to a letter of that word). *)
Definition lower_char (c : ascii) : ascii :=
  let n := N_of_ascii c in
  if (65 <=? n)%N && (n <=? 90)%N then ascii_of_N (n + 32) else c.

Fixpoint lower (s : string) : string :=
  match s with
  | EmptyString => EmptyString
  | String c s' => String (lower_char c) (lower s')
  end.

(** [sub in s]. *)
Fixpoint contains (sub s : string) : bool :=
  String.prefix sub s ||
  match s with
  | EmptyString => false
  | String _ s' => contains sub s'
  end.

(** The SQL engine computes [SUM] over the REAL values of a group. *)
Class SqlEngine (real : Type) : Type := {
  sql_sum : list real -> real
}.

(** ** Python values and results *)

Section Model.

Context {real : Type} {engine : SqlEngine real}.

(** What SQLite hands to Python and what Python hands back. *)
Inductive value : Type :=
| VNone
| VInt (z : Z)
| VFloat (x : real)
| VStr (s : string).

(** A Python dict with string keys, in insertion order. *)
Definition dict : Type := list (string * value).

(** What a tool returns: one dict, or a list of dicts. *)
Inductive response : Type :=
| Dict (d : dict)
| ListOfDict (l : list dict).

(** ** The expenses table *)

(** One row of table [expenses] (columns of [init_db]). *)
Record expense : Type := mkExpense {
  e_id : Z;
  e_date : string;
  e_amount : real;
  e_category : string;
  e_subcategory : string;
  e_note : string
}.

(** The database file: the rows of [expenses] and the entry that
    AUTOINCREMENT keeps for it in [sqlite_sequence] (the largest id ever
    assigned; 0 when there is none). *)
Record database : Type := mkDatabase {
  expenses : list expense;
  sqlite_sequence : Z
}.

(** Largest rowid SQLite can assign. *)
Definition MAX_ROWID : Z := 9223372036854775807.

Definition max_rowid (rows : list expense) : Z :=
  fold_right Z.max 0 (map e_id rows).

(** ** Statements *)

(** One entry of [set_parts] with its bound parameter. *)
Inductive assignment : Type :=
| SetAmount (x : real)      (* amount = ? *)
| SetNote (s : string).     (* note = ? *)

(** One conjunct of a WHERE clause with its bound parameters. *)
Inductive predicate : Type :=
| DateEq (s : string)             (* date = ? *)
| CategoryEq (s : string)         (* category = ? *)
| SubcategoryEq (s : string)      (* subcategory = ? *)
| DateBetween (lo hi : string).   (* date BETWEEN ? AND ? *)

Inductive statement : Type :=
| Insert (date : string) (amount : real) (category subcategory note : string)
| Update (set_parts : list assignment) (where_ : list predicate)
| Delete (where_ : list predicate)
| SelectExpenses (where_ : list predicate)
    (* SELECT id, date, amount, category, subcategory, note ... ORDER BY id ASC *)
| SelectTotals (where_ : list predicate).
    (* SELECT category, SUM(amount) AS total_amount ... GROUP BY category
       ORDER BY category ASC *)

Definition holds (p : predicate) (r : expense) : bool :=
  match p with
  | DateEq s => String.eqb (e_date r) s
  | CategoryEq s => String.eqb (e_category r) s
  | SubcategoryEq s => String.eqb (e_subcategory r) s
  | DateBetween lo hi => String.leb lo (e_date r) && String.leb (e_date r) hi
  end.

Definition eval_where (where_ : list predicate) (r : expense) : bool :=
  forallb (fun p => holds p r) where_.

Definition assign (r : expense) (a : assignment) : expense :=
  match a with
  | SetAmount x =>
      mkExpense (e_id r) (e_date r) x (e_category r) (e_subcategory r) (e_note r)
  | SetNote s =>
      mkExpense (e_id r) (e_date r) (e_amount r) (e_category r) (e_subcategory r) s
  end.

Definition apply_sets (set_parts : list assignment) (r : expense) : expense :=
  fold_left assign set_parts r.

(** ORDER BY: a stable insertion sort on a boolean order. *)
Fixpoint insert_by {A : Type} (le : A -> A -> bool) (x : A) (l : list A) : list A :=
  match l with
  | [] => [x]
  | y :: l' => if le x y then x :: y :: l' else y :: insert_by le x l'
  end.

Fixpoint sort_by {A : Type} (le : A -> A -> bool) (l : list A) : list A :=
  match l with
  | [] => []
  | x :: l' => insert_by le x (sort_by le l')
  end.

Definition id_le (r1 r2 : expense) : bool := e_id r1 <=? e_id r2.

(** GROUP BY category: the distinct categories of the selected rows. *)
Definition groups (rows : list expense) : list string :=
  sort_by String.leb (nodup string_dec (map e_category rows)).

Definition group_total (rows : list expense) (c : string) : real :=
  sql_sum (map e_amount (filter (fun r => String.eqb (e_category r) c) rows)).

Definition expense_tuple (r : expense) : list value :=
  [VInt (e_id r); VStr (e_date r); VFloat (e_amount r);
   VStr (e_category r); VStr (e_subcategory r); VStr (e_note r)].

(** What [execute] leaves in a cursor: [lastrowid], [rowcount] (-1 for a
    SELECT), the column names of [description] ([None] unless the
    statement is a SELECT) and the rows to fetch. *)
Record cursor : Type := mkCursor {
  lastrowid : Z;
  rowcount : Z;
  description : option (list string);
  result_set : list (list value)
}.

Definition count_where (where_ : list predicate) (rows : list expense) : Z :=
  Z.of_nat (List.length (filter (eval_where where_) rows)).

(** The effect of one statement on the database the connection sees.
    INSERT leaves the id to AUTOINCREMENT: one above the larger of
    [sqlite_sequence] and the largest id in the table, and a failure once
    the largest rowid has been used.  [rowcount] of an UPDATE or DELETE is
    the number of rows its WHERE clause selects. *)
Definition run_statement (st : statement) (db : database)
  : outcome cursor * database :=
  match st with
  | Insert date amount category subcategory note =>
      let top := Z.max (sqlite_sequence db) (max_rowid (expenses db)) in
      if MAX_ROWID <=? top then (Raise "database or disk is full", db)
      else
        let id := top + 1 in
        let row := mkExpense id date amount category subcategory note in
        (Return (mkCursor id 1 None []),
         mkDatabase (expenses db ++ [row]) id)
  | Update set_parts where_ =>
      let rows := map (fun r => if eval_where where_ r
                                then apply_sets set_parts r else r)
                      (expenses db) in
      (Return (mkCursor 0 (count_where where_ (expenses db)) None []),
       mkDatabase rows (sqlite_sequence db))
  | Delete where_ =>
      let rows := filter (fun r => negb (eval_where where_ r)) (expenses db) in
      (Return (mkCursor 0 (count_where where_ (expenses db)) None []),
       mkDatabase rows (sqlite_sequence db))
  | SelectExpenses where_ =>
      let rows := sort_by id_le (filter (eval_where where_) (expenses db)) in
      (Return (mkCursor 0 (-1)
                 (Some ["id"; "date"; "amount"; "category"; "subcategory";
                        "note"])
                 (map expense_tuple rows)),
       db)
  | SelectTotals where_ =>
      let rows := filter (eval_where where_) (expenses db) in
      (Return (mkCursor 0 (-1)
                 (Some ["category"; "total_amount"])
                 (map (fun c => [VStr c; VFloat (group_total rows c)])
                      (groups rows))),
       db)
  end.

(** ** Connections and coroutines *)

(** An open connection: the committed file, and the file as seen inside
    the connection's transaction. *)
Record connection : Type := mkConnection {
  on_disk : database;
  in_txn : database
}.

Definition action (A : Type) : Type := connection -> outcome A * connection.

Definition ret {A : Type} (a : A) : action A := fun c => (Return a, c).

Definition raise {A : Type} (e : string) : action A := fun c => (Raise e, c).

Definition bind {A B : Type} (m : action A) (k : A -> action B) : action B :=
  fun c => match m c with
           | (Return a, c') => k a c'
           | (Raise e, c') => (Raise e, c')
           end.

(** A coroutine object: nothing runs until it is awaited. *)
Inductive coroutine (A : Type) : Type :=
| Coro (body : action A).
Arguments Coro {A} body.

Definition await {A : Type} (co : coroutine A) : action A :=
  match co with Coro body => body end.

(** What a comprehension [[... for r in obj]] is given in this program: a
    list, or a coroutine object that was not awaited. *)
Inductive iterable (A : Type) : Type :=
| ListObject (l : list A)
| CoroutineObject (co : coroutine (list A)).
Arguments ListObject {A} l.
Arguments CoroutineObject {A} co.

(** [iter(obj)]: a list yields its elements; a coroutine object has no
    [__iter__] and Python raises TypeError. *)
Definition iterate {A : Type} (obj : iterable A) : action (list A) :=
  match obj with
  | ListObject l => ret l
  | CoroutineObject _ => raise "'coroutine' object is not iterable"
  end.

Definition execute (env : storage) (st : statement) : coroutine cursor :=
  Coro (fun c =>
    match execute_error env with
    | Some e => (Raise e, c)
    | None =>
        let (r, db) := run_statement st (in_txn c) in
        (r, mkConnection (on_disk c) db)
    end).

Definition commit (env : storage) : coroutine unit :=
  Coro (fun c =>
    match commit_error env with
    | Some e => (Raise e, c)
    | None => (Return tt, mkConnection (in_txn c) (in_txn c))
    end).

Definition fetchall (cur : cursor) : coroutine (list (list value)) :=
  Coro (ret (result_set cur)).

(** [[d[0] for d in cur.description]]. *)
Definition column_names (cur : cursor) : action (list string) :=
  match description cur with
  | Some cols => ret cols
  | None => raise "'NoneType' object is not iterable"
  end.

(** [async with aiosqlite.connect(DB_PATH) as c: body].  Leaving the block
    closes the connection, which drops what was not committed. *)
Definition with_connection {A : Type} (env : storage) (body : action A)
  (disk : database) : outcome A * database :=
  match connect_error env with
  | Some e => (Raise e, disk)
  | None =>
      let (r, c) := body (mkConnection disk disk) in
      (r, on_disk c)
  end.

Definition try_except {A : Type} (r : outcome A * database)
  (handler : string -> A) : A * database :=
  match r with
  | (Return a, disk) => (a, disk)
  | (Raise e, disk) => (handler e, disk)
  end.

Notation "x <- m ;; k" := (bind m (fun x => k))
  (at level 61, m at next level, right associativity).

(** ** The tools *)

(** [init_db]: CREATE TABLE IF NOT EXISTS on the file, which holds either
    no table yet ([None]) or an earlier one; leaving the [with] block
    commits.  A failure is printed and raised again. *)
Definition init_db (env : storage) (file : option database) : outcome database :=
  match connect_error env with
  | Some e => Raise e
  | None =>
      match execute_error env with
      | Some e => Raise e
      | None =>
          match commit_error env with
          | Some e => Raise e
          | None =>
              match file with
              | Some db => Return db
              | None => Return (mkDatabase [] 0)
              end
          end
      end
  end.

Definition readonly_message : string :=
  "Database is in read-only mode. Check file permissions.".

Definition error_dict (message : string) : response :=
  Dict [("status", VStr "error"); ("message", VStr message)].

(** The handler shared by [add_expense], [update_expense] and
    [delete_expense]. *)
Definition database_error (e : string) : response :=
  if contains "readonly" (lower e)
  then error_dict readonly_message
  else error_dict ("Database error: " ++ e)%string.

(** The body of the [try] block of [add_expense]. *)
Definition add_expense_try (env : storage) (date : string) (amount : real)
  (category subcategory note : string) (disk : database)
  : outcome response * database :=
  with_connection env
    (cur <- await (execute env (Insert date amount category subcategory note)) ;;
     _ <- await (commit env) ;;
     ret (Dict [("status", VStr "ok"); ("id", VInt (lastrowid cur));
                ("message", VStr "Expense added successfully")]))
    disk.

Definition add_expense (env : storage) (date : string) (amount : real)
  (category subcategory note : string) (disk : database)
  : response * database :=
  try_except (add_expense_try env date amount category subcategory note disk)
             database_error.

Definition update_expense_try (env : storage) (date category : string)
  (amount : real) (subcategory note : option string) (disk : database)
  : outcome response * database :=
  with_connection env
    (let set_parts := [SetAmount amount] in
     let set_parts :=
       match note with
       | Some n => set_parts ++ [SetNote n]
       | None => set_parts
       end in
     let where_ := [DateEq date; CategoryEq category] in
     let where_ :=
       match subcategory with
       | Some s => where_ ++ [SubcategoryEq s]
       | None => where_
       end in
     cur <- await (execute env (Update set_parts where_)) ;;
     _ <- await (commit env) ;;
     ret (Dict [("status", VStr "ok"); ("updated", VInt (rowcount cur));
                ("message", VStr "Expense updated successfully")]))
    disk.

Definition update_expense (env : storage) (date category : string)
  (amount : real) (subcategory note : option string) (disk : database)
  : response * database :=
  try_except (update_expense_try env date category amount subcategory note disk)
             database_error.

Definition delete_expense_try (env : storage) (date category : string)
  (subcategory : option string) (disk : database)
  : outcome response * database :=
  with_connection env
    (let where_ := [DateEq date; CategoryEq category] in
     let where_ :=
       match subcategory with
       | Some s => where_ ++ [SubcategoryEq s]
       | None => where_
       end in
     cur <- await (execute env (Delete where_)) ;;
     _ <- await (commit env) ;;
     ret (Dict [("status", VStr "ok"); ("deleted", VInt (rowcount cur));
                ("message", VStr "Expense deleted successfully")]))
    disk.

Definition delete_expense (env : storage) (date category : string)
  (subcategory : option string) (disk : database)
  : response * database :=
  try_except (delete_expense_try env date category subcategory disk)
             database_error.

(** [[dict(zip(cols, r)) for r in rows]]. *)
Definition dicts (cols : list string) (rows : list (list value)) : response :=
  ListOfDict (map (fun r => combine cols r) rows).

(** [fetchall] is a coroutine function of the cursor (as [execute] and
    [commit] are of the connection), and the source calls it without
    [await]: the comprehension is given the coroutine object itself. *)
Definition list_expenses_try (env : storage) (start_date end_date : string)
  (disk : database) : outcome response * database :=
  with_connection env
    (cur <- await (execute env (SelectExpenses [DateBetween start_date end_date])) ;;
     cols <- column_names cur ;;
     rows <- iterate (CoroutineObject (fetchall cur)) ;;
     ret (dicts cols rows))
    disk.

Definition list_expenses (env : storage) (start_date end_date : string)
  (disk : database) : response * database :=
  try_except (list_expenses_try env start_date end_date disk)
             (fun e => error_dict ("Error listing expenses: " ++ e)%string).

(** [if category:] is Python truthiness: neither [None] nor the empty
    string. *)
Definition truthy (category : option string) : bool :=
  match category with
  | Some (String _ _) => true
  | _ => false
  end.

Definition summarize_try (env : storage) (start_date end_date : string)
  (category : option string) (disk : database)
  : outcome response * database :=
  with_connection env
    (let where_ := [DateBetween start_date end_date] in
     let where_ :=
       match category with
       | Some c => if truthy category then where_ ++ [CategoryEq c] else where_
       | None => where_
       end in
     cur <- await (execute env (SelectTotals where_)) ;;
     cols <- column_names cur ;;
     rows <- iterate (CoroutineObject (fetchall cur)) ;;
     ret (dicts cols rows))
    disk.

Definition summarize (env : storage) (start_date end_date : string)
  (category : option string) (disk : database) : response * database :=
  try_except (summarize_try env start_date end_date category disk)
             (fun e => error_dict ("Error summarizing expenses: " ++ e)%string).

(** ** Sequences of calls *)

Inductive call : Type :=
| CallAdd (date : string) (amount : real) (category subcategory note : string)
| CallUpdate (date category : string) (amount : real)
             (subcategory note : option string)
| CallDelete (date category : string) (subcategory : option string)
| CallList (start_date end_date : string)
| CallSummarize (start_date end_date : string) (category : option string).

Definition invoke (env : storage) (c : call) (disk : database)
  : response * database :=
  match c with
  | CallAdd date amount category subcategory note =>
      add_expense env date amount category subcategory note disk
  | CallUpdate date category amount subcategory note =>
      update_expense env date category amount subcategory note disk
  | CallDelete date category subcategory =>
      delete_expense env date category subcategory disk
  | CallList start_date end_date =>
      list_expenses env start_date end_date disk
  | CallSummarize start_date end_date category =>
      summarize env start_date end_date category disk
  end.

(** One completed call: the file before it, what it returned, the file
    after it. *)
Record event : Type := mkEvent {
  ev_env : storage;
  ev_call : call;
  ev_before : database;
  ev_response : response;
  ev_after : database
}.

Fixpoint run (calls : list (storage * call)) (disk : database) : list event :=
  match calls with
  | [] => []
  | (env, c) :: rest =>
      let (resp, disk') := invoke env c disk in
      mkEvent env c disk resp disk' :: run rest disk'
  end.

(** [d.get(key)]. *)
Fixpoint get (key : string) (d : dict) : option value :=
  match d with
  | [] => None
  | (k, v) :: d' => if String.eqb k key then Some v else get key d'
  end.

(** The id that a call of [add_expense] reported with status ok. *)
Definition assigned_id (ev : event) : option Z :=
  match ev_call ev, ev_response ev with
  | CallAdd _ _ _ _ _, Dict d =>
      match get "status" d, get "id" d with
      | Some (VStr st), Some (VInt i) =>
          if String.eqb st "ok" then Some i else None
      | _, _ => None
      end
  | _, _ => None
  end.

(** ** Vocabulary of the specification *)

(** The rows an update or a delete addresses: date and category equal the
    given ones, and the subcategory too when one was supplied. *)
Definition selected (date category : string) (subcategory : option string)
  (r : expense) : bool :=
  String.eqb (e_date r) date && String.eqb (e_category r) category &&
  match subcategory with
  | Some s => String.eqb (e_subcategory r) s
  | None => true
  end.

(** A row after an update that addressed it. *)
Definition updated (amount : real) (note : option string) (r : expense)
  : expense :=
  mkExpense (e_id r) (e_date r) amount (e_category r) (e_subcategory r)
            (match note with Some n => n | None => e_note r end).

(** The date lies in the inclusive range, compared as strings. *)
Definition in_range (start_date end_date : string) (r : expense) : bool :=
  String.leb start_date (e_date r) && String.leb (e_date r) end_date.


(** The invariant AUTOINCREMENT maintains: no row has an id above the one
    recorded in [sqlite_sequence]. *)
Definition consistent (db : database) : Prop :=
  Forall (fun r => e_id r <= sqlite_sequence db) (expenses db).

(** The id column after a call is the id column of the rows it kept, in
    their order, followed by the id it assigned, if any. *)
Definition ids_carried_over (ev : event) : Prop :=
  exists keep : expense -> bool,
    map e_id (expenses (ev_after ev)) =
    map e_id (filter keep (expenses (ev_before ev))) ++
    match assigned_id ev with
    | Some i => [i]
    | None => []
    end.

Definition ok_updated (n : Z) : response :=
  Dict [("status", VStr "ok"); ("updated", VInt n);
        ("message", VStr "Expense updated successfully")].

Definition ok_deleted (n : Z) : response :=
  Dict [("status", VStr "ok"); ("deleted", VInt n);
        ("message", VStr "Expense deleted successfully")].

Definition ok_added (id : Z) : response :=
  Dict [("status", VStr "ok"); ("id", VInt id);
        ("message", VStr "Expense added successfully")].

Definition count (f : expense -> bool) (rows : list expense) : Z :=
  Z.of_nat (List.length (filter f rows)).

(** [result.get("status")] of what a tool returned; a list has none. *)
Definition status (resp : response) : option value :=
  match resp with
  | Dict d => get "status" d
  | ListOfDict _ => None
  end.

(** The call was an [add_expense] that reported an id. *)
Definition added (ev : event) : bool :=
  match assigned_id ev with
  | Some _ => true
  | None => false
  end.

(** The file after a sequence of calls. *)
Fixpoint final (calls : list (storage * call)) (disk : database) : database :=
  match calls with
  | [] => disk
  | (env, c) :: rest => final rest (snd (invoke env c disk))
  end.

(** The rows are stored by strictly ascending id. *)
Definition ascending (db : database) : Prop :=
  StronglySorted Z.lt (map e_id (expenses db)).

(** The row as [update_expense] leaves it, given the key it addresses. *)
Definition update_row (date category : string) (subcategory : option string)
  (amount : real) (note : option string) (r : expense) : expense :=
  if selected date category subcategory r then updated amount note r else r.

End Model.

(** ** A concrete engine for the examples: integer amounts, exact sums *)

#[export] Instance exact_engine : SqlEngine Z :=
  {| sql_sum := fold_right Z.add 0 |}.

Definition lunch : @expense Z :=
  mkExpense 1 "2024-01-05" 10 "Food" "lunch" "with team".

Definition coffee : @expense Z :=
  mkExpense 2 "2024-01-05" 5 "Food" "" "espresso".

Definition flight : @expense Z :=
  mkExpense 3 "2024-01-03" 20 "Travel" "air" "".

Definition ledger : @database Z := mkDatabase [lunch; coffee; flight] 3.

Definition readonly_storage : storage :=
  mkStorage None (Some "attempt to write a readonly database") None.

Definition locked_storage : storage :=
  mkStorage None None (Some "database is locked").

(** A new file after [init_db], and a short session on it: add a row,
    delete it, add another one. *)
Definition fresh : @database Z := mkDatabase [] 0.

Definition session : list (storage * @call Z) :=
  [(healthy, CallAdd "2024-01-05" 10 "Food" "lunch" "");
   (healthy, CallDelete "2024-01-05" "Food" None);
   (healthy, CallAdd "2024-01-06" 4 "Food" "" "")].

Definition first_add : @event Z :=
  mkEvent healthy (CallAdd "2024-01-05" 10 "Food" "lunch" "")
          fresh (ok_added 1)
          (mkDatabase [mkExpense 1 "2024-01-05" 10 "Food" "lunch" ""] 1).

Definition removal : @event Z :=
  mkEvent healthy (CallDelete "2024-01-05" "Food" None)
          (mkDatabase [mkExpense 1 "2024-01-05" 10 "Food" "lunch" ""] 1)
          (ok_deleted 1)
          (mkDatabase [] 1).

Definition second_add : @event Z :=
  mkEvent healthy (CallAdd "2024-01-06" 4 "Food" "" "")
          (mkDatabase [] 1) (ok_added 2)
          (mkDatabase [mkExpense 2 "2024-01-06" 4 "Food" "" ""] 2).


(** A session with failures in it: an add that cannot commit, a listing,
    an add, an update, an add. *)
Definition bumpy_session : list (storage * @call Z) :=
  [(locked_storage, CallAdd "2024-02-01" 8 "Food" "" "");
   (healthy, CallList "2024-01-01" "2024-12-31");
   (healthy, CallAdd "2024-02-02" 9 "Food" "" "");
   (healthy, CallUpdate "2024-02-02" "Food" 11 None None);
   (healthy, CallAdd "2024-02-03" 7 "Travel" "" "")].

(** Three rows of one date and category with distinct subcategories. *)
Definition three_meals : @database Z :=
  mkDatabase [mkExpense 1 "2024-01-05" 10 "Food" "breakfast" "eggs";
              mkExpense 2 "2024-01-05" 12 "Food" "lunch" "soup";
              mkExpense 3 "2024-01-05" 30 "Food" "dinner" "fish"] 3.

(** * Properties *)

Section Properties.

Context {real : Type} {engine : SqlEngine real}.

Implicit Types (disk db : @database real) (r : @expense real).
Implicit Types (rows : list (@expense real)).

(** ** The WHERE clause of update and delete *)

Lemma where_selected date category subcategory r :
  eval_where
    (match subcategory with
     | Some s => [DateEq date; CategoryEq category] ++ [SubcategoryEq s]
     | None => [DateEq date; CategoryEq category]
     end) r
  = selected date category subcategory r.
Proof.
  unfold selected, eval_where.
  destruct subcategory; simpl; now rewrite ?andb_true_r, ?andb_assoc.
Qed.

Lemma sets_updated amount note r :
  apply_sets
    (match note with
     | Some n => [SetAmount amount] ++ [SetNote n]
     | None => [SetAmount amount]
     end) r
  = updated amount note r.
Proof. destruct note; reflexivity. Qed.

Lemma count_where_selected date category subcategory rows :
  count_where
    (match subcategory with
     | Some s => [DateEq date; CategoryEq category] ++ [SubcategoryEq s]
     | None => [DateEq date; CategoryEq category]
     end) rows
  = count (selected date category subcategory) rows.
Proof.
  unfold count_where, count. do 2 f_equal.
  apply filter_ext. intro r. apply where_selected.
Qed.

(** What [update_expense] does when the storage layer does not fail. *)
Lemma update_expense_healthy date category amount subcategory note disk :
  update_expense healthy date category amount subcategory note disk =
  (ok_updated (count (selected date category subcategory) (expenses disk)),
   mkDatabase
     (map (fun r => if selected date category subcategory r
                    then updated amount note r else r) (expenses disk))
     (sqlite_sequence disk)).
Proof.
  unfold update_expense, update_expense_try, try_except, with_connection,
    bind, await, execute, commit, ret, run_statement, ok_updated.
  cbn [connect_error execute_error commit_error healthy on_disk in_txn
       rowcount fst snd].
  rewrite count_where_selected. do 2 f_equal.
  apply map_ext. intro r. now rewrite where_selected, sets_updated.
Qed.

(** What [delete_expense] does when the storage layer does not fail. *)
Lemma delete_expense_healthy date category subcategory disk :
  delete_expense healthy date category subcategory disk =
  (ok_deleted (count (selected date category subcategory) (expenses disk)),
   mkDatabase
     (filter (fun r => negb (selected date category subcategory r))
             (expenses disk))
     (sqlite_sequence disk)).
Proof.
  unfold delete_expense, delete_expense_try, try_except, with_connection,
    bind, await, execute, commit, ret, run_statement, ok_deleted.
  cbn [connect_error execute_error commit_error healthy on_disk in_txn
       rowcount fst snd].
  rewrite count_where_selected. do 2 f_equal.
  apply filter_ext. intro r. now rewrite where_selected.
Qed.

Lemma filter_none {A : Type} (f : A -> bool) (l : list A) :
  filter f l = [] -> forall x, In x l -> f x = false.
Proof.
  induction l as [|a l IH]; simpl; intros H x Hx; [contradiction|].
  destruct (f a) eqn:Ha; [discriminate|].
  destruct Hx as [<-|Hx]; auto.
Qed.

Lemma count_zero (f : expense -> bool) rows :
  count f rows = 0 -> forall r, In r rows -> f r = false.
Proof.
  unfold count. intros H. apply filter_none.
  destruct (filter f rows); [reflexivity|simpl in H; lia].
Qed.

Lemma map_unselected (f : expense -> bool) (g : expense -> expense) rows :
  (forall r, In r rows -> f r = false) ->
  map (fun r => if f r then g r else r) rows = rows.
Proof.
  induction rows as [|a l IH]; simpl; intros H; [reflexivity|].
  rewrite (H a) by auto. f_equal. apply IH. intros; apply H; auto.
Qed.

Lemma filter_unselected (f : expense -> bool) rows :
  (forall r, In r rows -> f r = false) ->
  filter (fun r => negb (f r)) rows = rows.
Proof.
  induction rows as [|a l IH]; simpl; intros H; [reflexivity|].
  rewrite (H a) by auto. simpl. f_equal. apply IH. intros; apply H; auto.
Qed.

Lemma database_eta disk :
  mkDatabase (expenses disk) (sqlite_sequence disk) = disk.
Proof. now destruct disk. Qed.

Lemma Forall2_map_cases (f : expense -> bool) (g : expense -> expense)
      (R : expense -> expense -> Prop) rows :
  (forall r, f r = true -> R r (g r)) ->
  (forall r, f r = false -> R r r) ->
  Forall2 R rows (map (fun r => if f r then g r else r) rows).
Proof.
  intros Hg Hid. induction rows as [|a l IH]; simpl; constructor; auto.
  destruct (f a) eqn:Ha; auto.
Qed.

(** ** update_expense *)

(** C2: without a storage failure, [update_expense] answers status ok with
    [updated] the number of rows whose date and category equal the given
    ones (and whose subcategory equals the given one when one was
    supplied); it sets the amount on each of those rows, keeps their id,
    date, category and subcategory, and leaves every other row as it was;
    when no row is addressed the answer is still ok, with [updated] 0, and
    the file is unchanged. *)
Theorem update_expense_sets_amount_on_selected_rows
  date category amount subcategory note disk :
  fst (update_expense healthy date category amount subcategory note disk) =
    Dict [("status", VStr "ok");
          ("updated",
           VInt (count (selected date category subcategory) (expenses disk)));
          ("message", VStr "Expense updated successfully")]
  /\ Forall2
       (fun r r' =>
          if selected date category subcategory r
          then e_amount r' = amount /\ e_id r' = e_id r /\
               e_date r' = e_date r /\ e_category r' = e_category r /\
               e_subcategory r' = e_subcategory r
          else r' = r)
       (expenses disk)
       (expenses
          (snd (update_expense healthy date category amount subcategory note
                               disk)))
  /\ (count (selected date category subcategory) (expenses disk) = 0 ->
      update_expense healthy date category amount subcategory note disk =
        (Dict [("status", VStr "ok"); ("updated", VInt 0);
               ("message", VStr "Expense updated successfully")], disk)).
Proof.
  rewrite update_expense_healthy. cbn [fst snd expenses]. repeat split.
  - apply Forall2_map_cases; intros r Hr; rewrite Hr; cbn; auto.
  - intros H0. unfold ok_updated. rewrite H0. f_equal.
    rewrite map_unselected by (apply count_zero; exact H0).
    apply database_eta.
Qed.

(** C6: without a storage failure, when no note is supplied every
    addressed row keeps its note and gets the given amount; when a note is
    supplied every addressed row gets that note and the given amount; the
    rows not addressed are left as they were. *)
Theorem update_expense_note_only_when_supplied
  date category amount subcategory disk :
  Forall2
    (fun r r' =>
       if selected date category subcategory r
       then e_note r' = e_note r /\ e_amount r' = amount
       else r' = r)
    (expenses disk)
    (expenses
       (snd (update_expense healthy date category amount subcategory None
                            disk)))
  /\ forall n : string,
      Forall2
        (fun r r' =>
           if selected date category subcategory r
           then e_note r' = n /\ e_amount r' = amount
           else r' = r)
        (expenses disk)
        (expenses
           (snd (update_expense healthy date category amount subcategory
                                (Some n) disk))).
Proof.
  split; [|intro n]; rewrite update_expense_healthy; cbn [snd expenses];
    apply Forall2_map_cases; intros r Hr; rewrite Hr; cbn; auto.
Qed.

(** ** delete_expense *)

(** C7: without a storage failure, [delete_expense] answers status ok with
    [deleted] the number of rows whose date and category equal the given
    ones (and whose subcategory equals the given one when one was
    supplied), and the table afterwards holds exactly the other rows, in
    their order; when no row is addressed it answers ok with [deleted] 0
    and the file is unchanged. *)
Theorem delete_expense_removes_selected_rows
  date category subcategory disk :
  delete_expense healthy date category subcategory disk =
    (Dict [("status", VStr "ok");
           ("deleted",
            VInt (count (selected date category subcategory) (expenses disk)));
           ("message", VStr "Expense deleted successfully")],
     mkDatabase
       (filter (fun r => negb (selected date category subcategory r))
               (expenses disk))
       (sqlite_sequence disk))
  /\ (count (selected date category subcategory) (expenses disk) = 0 ->
      delete_expense healthy date category subcategory disk =
        (Dict [("status", VStr "ok"); ("deleted", VInt 0);
               ("message", VStr "Expense deleted successfully")], disk)).
Proof.
  rewrite delete_expense_healthy. split; [reflexivity|].
  intros H0. unfold ok_deleted. rewrite H0. f_equal.
  rewrite filter_unselected by (apply count_zero; exact H0).
  apply database_eta.
Qed.

(** ** Presence of the subcategory, not its truthiness *)

(** C8: without a storage failure, [update_expense] and [delete_expense]
    called with the empty string as subcategory address exactly the rows of
    that date and category whose subcategory is the empty string; called
    without a subcategory they address the rows of that date and category
    whatever their subcategory.  A row of that date and category with a
    non-empty subcategory is therefore kept by the first delete and removed
    by the second, and left alone by the first update and changed by the
    second. *)
Theorem empty_subcategory_is_not_omitted
  date category amount note disk :
  (expenses (snd (delete_expense healthy date category (Some "") disk)) =
     filter (fun r => negb (String.eqb (e_date r) date &&
                            String.eqb (e_category r) category &&
                            String.eqb (e_subcategory r) ""))
            (expenses disk)
   /\ expenses (snd (delete_expense healthy date category None disk)) =
        filter (fun r => negb (String.eqb (e_date r) date &&
                               String.eqb (e_category r) category))
               (expenses disk))
  /\ (expenses (snd (update_expense healthy date category amount (Some "")
                                    note disk)) =
        map (fun r => if String.eqb (e_date r) date &&
                         String.eqb (e_category r) category &&
                         String.eqb (e_subcategory r) ""
                      then updated amount note r else r)
            (expenses disk)
      /\ expenses (snd (update_expense healthy date category amount None
                                       note disk)) =
           map (fun r => if String.eqb (e_date r) date &&
                            String.eqb (e_category r) category
                         then updated amount note r else r)
               (expenses disk))
  /\ forall id old c sub text seq,
      let r := mkExpense id date old category (String c sub) text in
      delete_expense healthy date category (Some "") (mkDatabase [r] seq) =
        (ok_deleted 0, mkDatabase [r] seq)
      /\ delete_expense healthy date category None (mkDatabase [r] seq) =
           (ok_deleted 1, mkDatabase [] seq)
      /\ update_expense healthy date category amount (Some "") note
                        (mkDatabase [r] seq) =
           (ok_updated 0, mkDatabase [r] seq)
      /\ update_expense healthy date category amount None note
                        (mkDatabase [r] seq) =
           (ok_updated 1, mkDatabase [updated amount note r] seq).
Proof.
  repeat split;
    rewrite ?delete_expense_healthy, ?update_expense_healthy;
    cbn [snd expenses sqlite_sequence].
  - reflexivity.
  - apply filter_ext. intro r. unfold selected. now rewrite andb_true_r.
  - reflexivity.
  - apply map_ext. intro r. unfold selected. now rewrite andb_true_r.
  - unfold count, selected. cbn. rewrite !String.eqb_refl. reflexivity.
  - unfold count, selected. cbn. rewrite !String.eqb_refl. reflexivity.
  - unfold count, selected. cbn. rewrite !String.eqb_refl. reflexivity.
  - unfold count, selected. cbn. rewrite !String.eqb_refl. reflexivity.
Qed.

(** ** Failures *)

Ltac run_try :=
  unfold add_expense_try, update_expense_try, delete_expense_try,
    list_expenses_try, summarize_try, with_connection, bind, await,
    execute, commit, fetchall, column_names, iterate, raise, ret;
  cbn [connect_error execute_error commit_error healthy on_disk in_txn].

(** A [try] block that raises has committed nothing. *)
Lemma add_expense_try_raise env date amount category subcategory note disk e :
  fst (add_expense_try env date amount category subcategory note disk) = Raise e ->
  add_expense_try env date amount category subcategory note disk = (Raise e, disk).
Proof.
  run_try. destruct (connect_error env); [cbn; congruence|].
  destruct (execute_error env); [cbn; congruence|].
  unfold run_statement.
  destruct (MAX_ROWID <=? _); [cbn; congruence|].
  destruct (commit_error env); cbn; congruence.
Qed.

Lemma update_expense_try_raise env date category amount subcategory note disk e :
  fst (update_expense_try env date category amount subcategory note disk) = Raise e ->
  update_expense_try env date category amount subcategory note disk = (Raise e, disk).
Proof.
  run_try. destruct (connect_error env); [cbn; congruence|].
  destruct (execute_error env); [cbn; congruence|].
  unfold run_statement.
  destruct (commit_error env); cbn; congruence.
Qed.

Lemma delete_expense_try_raise env date category subcategory disk e :
  fst (delete_expense_try env date category subcategory disk) = Raise e ->
  delete_expense_try env date category subcategory disk = (Raise e, disk).
Proof.
  run_try. destruct (connect_error env); [cbn; congruence|].
  destruct (execute_error env); [cbn; congruence|].
  unfold run_statement.
  destruct (commit_error env); cbn; congruence.
Qed.

(** The un-awaited [fetchall] makes the [try] block of [list_expenses]
    raise on every path, and nothing is written. *)
Lemma list_expenses_try_raises env start_date end_date disk :
  list_expenses_try env start_date end_date disk =
  (Raise match connect_error env with
         | Some e => e
         | None =>
             match execute_error env with
             | Some e => e
             | None => "'coroutine' object is not iterable"
             end
         end, disk).
Proof.
  run_try. destruct (connect_error env); [reflexivity|].
  destruct (execute_error env); reflexivity.
Qed.

Lemma summarize_try_raises env start_date end_date category disk :
  summarize_try env start_date end_date category disk =
  (Raise match connect_error env with
         | Some e => e
         | None =>
             match execute_error env with
             | Some e => e
             | None => "'coroutine' object is not iterable"
             end
         end, disk).
Proof.
  run_try. destruct (connect_error env); [reflexivity|].
  destruct (execute_error env); reflexivity.
Qed.

(** A failure of the storage layer at connect or execute time is what the
    [try] block raises. *)
Lemma storage_failure_raises env e disk :
  (connect_error env = Some e \/
   connect_error env = None /\ execute_error env = Some e) ->
  (forall date amount category subcategory note,
      fst (add_expense_try env date amount category subcategory note disk)
      = Raise e)
  /\ (forall date category amount subcategory note,
      fst (update_expense_try env date category amount subcategory note disk)
      = Raise e)
  /\ (forall date category subcategory,
      fst (delete_expense_try env date category subcategory disk) = Raise e)
  /\ (forall start_date end_date,
      fst (list_expenses_try env start_date end_date disk) = Raise e)
  /\ (forall start_date end_date category,
      fst (summarize_try env start_date end_date category disk) = Raise e).
Proof.
  intros [Hc|[Hc He]]; repeat split; intros; run_try;
    rewrite Hc; try rewrite He; reflexivity.
Qed.

(** C5 (amended): whatever the [try] block of an operation raises, the
    operation returns a dict with status error and a message, and the file
    is as it was.  For [add_expense], [update_expense] and [delete_expense]
    the message is the read-only one when the lower-cased description
    contains "readonly", and "Database error: " followed by the description
    otherwise.  For [list_expenses] and [summarize] the message is always
    the operation's own prefix followed by the description. *)
Theorem failure_becomes_error_result env e disk :
  (forall date amount category subcategory note,
      fst (add_expense_try env date amount category subcategory note disk)
        = Raise e ->
      add_expense env date amount category subcategory note disk =
        (Dict [("status", VStr "error");
               ("message",
                VStr (if contains "readonly" (lower e)
                      then "Database is in read-only mode. Check file permissions."
                      else "Database error: " ++ e)%string)], disk))
  /\ (forall date category amount subcategory note,
      fst (update_expense_try env date category amount subcategory note disk)
        = Raise e ->
      update_expense env date category amount subcategory note disk =
        (Dict [("status", VStr "error");
               ("message",
                VStr (if contains "readonly" (lower e)
                      then "Database is in read-only mode. Check file permissions."
                      else "Database error: " ++ e)%string)], disk))
  /\ (forall date category subcategory,
      fst (delete_expense_try env date category subcategory disk) = Raise e ->
      delete_expense env date category subcategory disk =
        (Dict [("status", VStr "error");
               ("message",
                VStr (if contains "readonly" (lower e)
                      then "Database is in read-only mode. Check file permissions."
                      else "Database error: " ++ e)%string)], disk))
  /\ (forall start_date end_date,
      fst (list_expenses_try env start_date end_date disk) = Raise e ->
      list_expenses env start_date end_date disk =
        (Dict [("status", VStr "error");
               ("message", VStr ("Error listing expenses: " ++ e)%string)],
         disk))
  /\ (forall start_date end_date category,
      fst (summarize_try env start_date end_date category disk) = Raise e ->
      summarize env start_date end_date category disk =
        (Dict [("status", VStr "error");
               ("message", VStr ("Error summarizing expenses: " ++ e)%string)],
         disk)).
Proof.
  repeat split; intros.
  - unfold add_expense. rewrite (add_expense_try_raise _ _ _ _ _ _ _ _ H).
    unfold try_except, database_error, error_dict, readonly_message.
    now destruct (contains "readonly" (lower e)).
  - unfold update_expense. rewrite (update_expense_try_raise _ _ _ _ _ _ _ _ H).
    unfold try_except, database_error, error_dict, readonly_message.
    now destruct (contains "readonly" (lower e)).
  - unfold delete_expense. rewrite (delete_expense_try_raise _ _ _ _ _ _ H).
    unfold try_except, database_error, error_dict, readonly_message.
    now destruct (contains "readonly" (lower e)).
  - unfold list_expenses. rewrite list_expenses_try_raises in *.
    cbn in H. injection H as <-. reflexivity.
  - unfold summarize. rewrite summarize_try_raises in *.
    cbn in H. injection H as <-. reflexivity.
Qed.

(** ** The read operations *)

(** C10: [list_expenses] and [summarize] leave the file exactly as it was,
    whatever the arguments and whether or not the storage layer fails. *)
Theorem reads_leave_the_table_unchanged
  env start_date end_date category disk :
  snd (list_expenses env start_date end_date disk) = disk
  /\ snd (summarize env start_date end_date category disk) = disk.
Proof.
  unfold list_expenses, summarize.
  now rewrite list_expenses_try_raises, summarize_try_raises.
Qed.

(** C4 (as the code behaves): [list_expenses] never returns the rows.  Its
    [try] block always raises, so the result is a dict with status error;
    with a storage layer that does not fail the message reports that a
    coroutine object is not iterable. *)
Theorem list_expenses_returns_an_error env start_date end_date disk :
  fst (list_expenses env start_date end_date disk) =
    Dict [("status", VStr "error");
          ("message",
           VStr ("Error listing expenses: " ++
                 match connect_error env with
                 | Some e => e
                 | None =>
                     match execute_error env with
                     | Some e => e
                     | None => "'coroutine' object is not iterable"
                     end
                 end)%string)].
Proof.
  unfold list_expenses. now rewrite list_expenses_try_raises.
Qed.

(** C3 (as the code behaves): [summarize] never returns the totals.  Its
    [try] block always raises, so the result is a dict with status error;
    with a storage layer that does not fail the message reports that a
    coroutine object is not iterable. *)
Theorem summarize_returns_an_error env start_date end_date category disk :
  fst (summarize env start_date end_date category disk) =
    Dict [("status", VStr "error");
          ("message",
           VStr ("Error summarizing expenses: " ++
                 match connect_error env with
                 | Some e => e
                 | None =>
                     match execute_error env with
                     | Some e => e
                     | None => "'coroutine' object is not iterable"
                     end
                 end)%string)].
Proof.
  unfold summarize. now rewrite summarize_try_raises.
Qed.

(** ** add_expense and the ids it assigns *)

Lemma database_error_is_error e :
  exists m, @database_error real e = error_dict m.
Proof.
  unfold database_error. destruct (contains "readonly" (lower e)); eauto.
Qed.

Ltac reported e :=
  let m := fresh "m" in
  let Hm := fresh "Hm" in
  destruct (database_error_is_error e) as [m Hm];
  exists m; rewrite Hm; reflexivity.

(** [add_expense] either reports an error and writes nothing, or appends
    one row whose id is one above both [sqlite_sequence] and every id in
    the table. *)
Lemma add_expense_cases env date amount category subcategory note disk :
  (exists m,
      add_expense env date amount category subcategory note disk =
      (error_dict m, disk))
  \/ (Z.max (sqlite_sequence disk) (max_rowid (expenses disk)) < MAX_ROWID
      /\ add_expense env date amount category subcategory note disk =
         (ok_added (Z.max (sqlite_sequence disk) (max_rowid (expenses disk)) + 1),
          mkDatabase
            (expenses disk ++
             [mkExpense
                (Z.max (sqlite_sequence disk) (max_rowid (expenses disk)) + 1)
                date amount category subcategory note])
            (Z.max (sqlite_sequence disk) (max_rowid (expenses disk)) + 1))).
Proof.
  unfold add_expense. run_try. unfold try_except.
  destruct (connect_error env) as [e|];
    [left; reported e|].
  destruct (execute_error env) as [e|];
    [left; reported e|].
  unfold run_statement.
  destruct (Z.leb_spec MAX_ROWID
              (Z.max (sqlite_sequence disk) (max_rowid (expenses disk))))
    as [Hfull|Hroom].
  - left. cbn. eexists. reflexivity.
  - destruct (commit_error env) as [e|]; cbn.
    + left. reported e.
    + right. split; [exact Hroom|reflexivity].
Qed.

Lemma add_expense_healthy date amount category subcategory note disk :
  Z.max (sqlite_sequence disk) (max_rowid (expenses disk)) < MAX_ROWID ->
  add_expense healthy date amount category subcategory note disk =
  (ok_added (Z.max (sqlite_sequence disk) (max_rowid (expenses disk)) + 1),
   mkDatabase
     (expenses disk ++
      [mkExpense
         (Z.max (sqlite_sequence disk) (max_rowid (expenses disk)) + 1)
         date amount category subcategory note])
     (Z.max (sqlite_sequence disk) (max_rowid (expenses disk)) + 1)).
Proof.
  intros Hroom. unfold add_expense. run_try. unfold try_except, run_statement.
  destruct (Z.leb_spec MAX_ROWID
              (Z.max (sqlite_sequence disk) (max_rowid (expenses disk))));
    [lia|reflexivity].
Qed.

Lemma update_expense_cases env date category amount subcategory note disk :
  (exists m,
      update_expense env date category amount subcategory note disk =
      (error_dict m, disk))
  \/ update_expense env date category amount subcategory note disk =
     update_expense healthy date category amount subcategory note disk.
Proof.
  unfold update_expense. run_try. unfold try_except.
  destruct (connect_error env) as [e|];
    [left; reported e|].
  destruct (execute_error env) as [e|];
    [left; reported e|].
  unfold run_statement.
  destruct (commit_error env) as [e|]; cbn.
  - left. reported e.
  - right. reflexivity.
Qed.

Lemma delete_expense_cases env date category subcategory disk :
  (exists m,
      delete_expense env date category subcategory disk =
      (error_dict m, disk))
  \/ delete_expense env date category subcategory disk =
     delete_expense healthy date category subcategory disk.
Proof.
  unfold delete_expense. run_try. unfold try_except.
  destruct (connect_error env) as [e|];
    [left; reported e|].
  destruct (execute_error env) as [e|];
    [left; reported e|].
  unfold run_statement.
  destruct (commit_error env) as [e|]; cbn.
  - left. reported e.
  - right. reflexivity.
Qed.

Lemma max_rowid_ge rows r : In r rows -> e_id r <= max_rowid rows.
Proof.
  unfold max_rowid. induction rows as [|a l IH]; simpl; [contradiction|].
  intros [<-|H]; [lia|]. specialize (IH H). lia.
Qed.

Lemma max_rowid_nonneg rows : 0 <= max_rowid rows.
Proof.
  unfold max_rowid. induction rows as [|a l IH]; simpl; lia.
Qed.

Lemma map_id_updated (f : expense -> bool) amount note rows :
  map e_id (map (fun r => if f r then updated amount note r else r) rows)
  = map e_id rows.
Proof.
  rewrite map_map. apply map_ext. intro r. now destruct (f r).
Qed.

Lemma filter_all rows : filter (fun _ : expense => true) rows = rows.
Proof. induction rows; simpl; congruence. Qed.

Lemma unchanged_carries_over env c disk m :
  ids_carried_over (mkEvent env c disk (error_dict m) disk)
  /\ assigned_id (mkEvent env c disk (error_dict m) disk) = None.
Proof.
  assert (Hnone : assigned_id (mkEvent env c disk (error_dict m) disk) = None)
    by (destruct c; reflexivity).
  split; [|exact Hnone].
  exists (fun _ => true). rewrite Hnone, filter_all, app_nil_r. reflexivity.
Qed.

(** One call: the AUTOINCREMENT invariant is kept, [sqlite_sequence] does
    not decrease, an assigned id is the new [sqlite_sequence] and lies
    above the old one and above every id in the table, and the ids of the
    rows that stay are carried over. *)
Lemma invoke_step env c disk resp disk' :
  invoke env c disk = (resp, disk') ->
  (consistent disk -> consistent disk')
  /\ sqlite_sequence disk <= sqlite_sequence disk'
  /\ (forall i, assigned_id (mkEvent env c disk resp disk') = Some i ->
        i = sqlite_sequence disk' /\ sqlite_sequence disk < i /\
        max_rowid (expenses disk) < i)
  /\ ids_carried_over (mkEvent env c disk resp disk').
Proof.
  assert (Hsame : forall m, (resp, disk') = (error_dict m, disk) ->
    (consistent disk -> consistent disk')
    /\ sqlite_sequence disk <= sqlite_sequence disk'
    /\ (forall i, assigned_id (mkEvent env c disk resp disk') = Some i ->
          i = sqlite_sequence disk' /\ sqlite_sequence disk < i /\
          max_rowid (expenses disk) < i)
    /\ ids_carried_over (mkEvent env c disk resp disk')).
  { intros m [= -> ->].
    destruct (unchanged_carries_over env c disk m) as [Hc Hn].
    repeat split; auto; try lia; rewrite Hn in *; discriminate. }
  destruct c as [date amount category subcategory note
                |date category amount subcategory note
                |date category subcategory
                |start_date end_date
                |start_date end_date category]; cbn [invoke]; intros Hinv.
  - destruct (add_expense_cases env date amount category subcategory note disk)
      as [[m Hm]|[Hroom Hok]].
    + apply (Hsame m). congruence.
    + rewrite Hok in Hinv. injection Hinv as <- <-.
      cbn [sqlite_sequence expenses].
      repeat split.
      * unfold consistent. cbn [sqlite_sequence expenses]. intros Hc.
        apply Forall_app. split.
        -- eapply Forall_impl; [|exact Hc]. cbn. intros; lia.
        -- repeat constructor. cbn. lia.
      * lia.
      * cbn in H. now injection H as <-.
      * cbn in H. injection H as <-. lia.
      * cbn in H. injection H as <-. lia.
      * exists (fun _ => true). cbn. rewrite filter_all, map_app. reflexivity.
  - destruct (update_expense_cases env date category amount subcategory note disk)
      as [[m Hm]|Hok].
    + apply (Hsame m). congruence.
    + rewrite Hok, update_expense_healthy in Hinv. injection Hinv as <- <-.
      cbn [sqlite_sequence expenses].
      repeat split; try lia; try discriminate.
      * unfold consistent. cbn [sqlite_sequence expenses]. intros Hc.
        apply Forall_map. eapply Forall_impl; [|exact Hc].
        intros r Hr. now destruct (selected date category subcategory r).
      * exists (fun _ => true). cbn.
        rewrite filter_all, map_id_updated, app_nil_r. reflexivity.
  - destruct (delete_expense_cases env date category subcategory disk)
      as [[m Hm]|Hok].
    + apply (Hsame m). congruence.
    + rewrite Hok, delete_expense_healthy in Hinv. injection Hinv as <- <-.
      cbn [sqlite_sequence expenses].
      repeat split; try lia; try discriminate.
      * unfold consistent. cbn [sqlite_sequence expenses]. intros Hc.
        apply Forall_forall. intros r Hr. apply filter_In in Hr.
        rewrite Forall_forall in Hc. now apply Hc.
      * exists (fun r => negb (selected date category subcategory r)). cbn.
        now rewrite app_nil_r.
  - eapply Hsame. rewrite <- Hinv. unfold list_expenses.
    rewrite list_expenses_try_raises. reflexivity.
  - eapply Hsame. rewrite <- Hinv. unfold summarize.
    rewrite summarize_try_raises. reflexivity.
Qed.

(** Along a run: every event is one call of [invoke]; the invariant holds
    before each call; [sqlite_sequence] never decreases from the start to
    an event, nor from the end of an earlier event to a later one. *)
Lemma run_history calls : forall disk pre ev post,
  consistent disk ->
  run calls disk = pre ++ ev :: post ->
  consistent (ev_before ev)
  /\ sqlite_sequence disk <= sqlite_sequence (ev_before ev)
  /\ invoke (ev_env ev) (ev_call ev) (ev_before ev)
     = (ev_response ev, ev_after ev)
  /\ forall ev', In ev' pre ->
       consistent (ev_before ev')
       /\ invoke (ev_env ev') (ev_call ev') (ev_before ev')
          = (ev_response ev', ev_after ev')
       /\ sqlite_sequence (ev_after ev') <= sqlite_sequence (ev_before ev).
Proof.
  induction calls as [|[env c] rest IH]; intros disk pre ev post Hc Hrun.
  - destruct pre; discriminate.
  - cbn [run] in Hrun.
    destruct (invoke env c disk) as [resp disk'] eqn:Hinv.
    destruct (invoke_step _ _ _ _ _ Hinv) as (Hcons & Hseq & _ & _).
    destruct pre as [|e0 pre'].
    + injection Hrun as <- _. cbn.
      split; [exact Hc|]. split; [lia|]. split; [exact Hinv|].
      intros ev' [].
    + injection Hrun as <- Hrest.
      destruct (IH disk' pre' ev post (Hcons Hc) Hrest)
        as (Hb & Hle & Hstep & Hpre).
      split; [exact Hb|]. split; [lia|]. split; [exact Hstep|].
      intros ev' [<-|Hin]; [cbn; auto|now apply Hpre].
Qed.

Lemma event_eta (ev : @event real) :
  mkEvent (ev_env ev) (ev_call ev) (ev_before ev) (ev_response ev)
          (ev_after ev) = ev.
Proof. now destruct ev. Qed.

(** C9: start from the store as [init_db] leaves it (a new file, or an
    earlier file that satisfies the AUTOINCREMENT invariant) and make any
    sequence of calls, with or without storage failures.  Whenever a call
    of [add_expense] reports an id, no row of the table before that call,
    and no row of the table before any earlier call, has that id; every id
    reported by an earlier [add_expense] is smaller; and at every call the
    ids of the rows that stay are carried over unchanged, followed by the
    id just assigned, if any. *)
Theorem assigned_ids_are_fresh_and_increasing
  (env0 : storage) (file : option database) disk0
  (calls : list (storage * call)) :
  init_db env0 file = Return disk0 ->
  (forall db, file = Some db -> consistent db) ->
  forall pre ev post,
    run calls disk0 = pre ++ ev :: post ->
    (forall i, assigned_id ev = Some i ->
       (forall r, In r (expenses (ev_before ev)) -> e_id r <> i)
       /\ (forall ev' r, In ev' pre -> In r (expenses (ev_before ev')) ->
             e_id r <> i)
       /\ (forall ev' i', In ev' pre -> assigned_id ev' = Some i' -> i' < i))
    /\ ids_carried_over ev.
Proof.
  intros Hinit Hfile pre ev post Hrun.
  assert (Hc0 : consistent disk0).
  { unfold init_db in Hinit.
    destruct (connect_error env0); [discriminate|].
    destruct (execute_error env0); [discriminate|].
    destruct (commit_error env0); [discriminate|].
    destruct file as [db|]; injection Hinit as <-.
    - now apply Hfile.
    - constructor. }
  destruct (run_history calls disk0 pre ev post Hc0 Hrun)
    as (Hb & _ & Hstep & Hpre).
  destruct (invoke_step _ _ _ _ _ Hstep) as (_ & _ & Hid & Hkeep).
  rewrite event_eta in Hid, Hkeep.
  split; [|exact Hkeep].
  intros i Hi. destruct (Hid i Hi) as (_ & Hseq & Hmax).
  repeat split.
  - intros r Hr Heq. apply max_rowid_ge in Hr. lia.
  - intros ev' r Hev' Hr Heq.
    destruct (Hpre ev' Hev') as (Hc' & Hstep' & Hle').
    destruct (invoke_step _ _ _ _ _ Hstep') as (_ & Hmono & _ & _).
    unfold consistent in Hc'. rewrite Forall_forall in Hc'.
    specialize (Hc' r Hr). lia.
  - intros ev' i' Hev' Hi'.
    destruct (Hpre ev' Hev') as (_ & Hstep' & Hle').
    destruct (invoke_step _ _ _ _ _ Hstep') as (_ & _ & Hid' & _).
    rewrite event_eta in Hid'. destruct (Hid' i' Hi') as (-> & _). lia.
Qed.

(** C1 (as the code behaves): after any [add_expense], successful or not,
    [list_expenses] over any range does not return the row: with a storage
    layer that does not fail it returns a dict with status error whose
    message reports that a coroutine object is not iterable. *)
Theorem add_then_list_returns_an_error
  date amount category subcategory note start_date end_date disk :
  fst (list_expenses healthy start_date end_date
         (snd (add_expense healthy date amount category subcategory note disk)))
  = Dict [("status", VStr "error");
          ("message",
           VStr "Error listing expenses: 'coroutine' object is not iterable")].
Proof.
  unfold list_expenses. now rewrite list_expenses_try_raises.
Qed.

(** ** What the two SELECT statements put in the cursor

    The rows never reach the caller (the [fetchall] coroutine is not
    awaited), but the cursor that [execute] returns does hold what the
    queries ask for. *)

Lemma insert_by_perm {A : Type} (le : A -> A -> bool) x (l : list A) :
  Permutation (insert_by le x l) (x :: l).
Proof.
  induction l as [|y l IH]; simpl; [reflexivity|].
  destruct (le x y); [reflexivity|].
  rewrite IH. apply perm_swap.
Qed.

Lemma sort_by_perm {A : Type} (le : A -> A -> bool) (l : list A) :
  Permutation (sort_by le l) l.
Proof.
  induction l as [|x l IH]; simpl; [reflexivity|].
  rewrite insert_by_perm. now constructor.
Qed.

Lemma insert_by_sorted {A : Type} (le : A -> A -> bool) x (l : list A) :
  (forall a b, le a b = true \/ le b a = true) ->
  Sorted (fun a b => le a b = true) l ->
  Sorted (fun a b => le a b = true) (insert_by le x l).
Proof.
  intros Htotal Hs. induction Hs as [|y l Hs IH Hhd]; simpl.
  - repeat constructor.
  - destruct (le x y) eqn:Hxy.
    + repeat constructor; assumption.
    + constructor; [exact IH|].
      destruct l as [|z l]; simpl.
      * constructor. destruct (Htotal x y); congruence.
      * destruct (le x z).
        -- constructor. destruct (Htotal x y); congruence.
        -- inversion Hhd; subst. now constructor.
Qed.

Lemma sort_by_sorted {A : Type} (le : A -> A -> bool) (l : list A) :
  (forall a b, le a b = true \/ le b a = true) ->
  Sorted (fun a b => le a b = true) (sort_by le l).
Proof.
  intros Htotal. induction l as [|x l IH]; simpl; [constructor|].
  now apply insert_by_sorted.
Qed.

Lemma id_le_total r1 r2 : id_le r1 r2 = true \/ id_le r2 r1 = true.
Proof. unfold id_le. lia. Qed.

(** The cursor of the query of [list_expenses]: six named columns, and
    the rows of the table whose date is in the inclusive range, each one
    once, by ascending id. *)
Lemma select_expenses_cursor start_date end_date disk :
  exists rows,
    run_statement (SelectExpenses [DateBetween start_date end_date]) disk =
      (Return (mkCursor 0 (-1)
                 (Some ["id"; "date"; "amount"; "category"; "subcategory";
                        "note"])
                 (map expense_tuple rows)), disk)
    /\ Permutation rows (filter (in_range start_date end_date) (expenses disk))
    /\ Sorted (fun r1 r2 => e_id r1 <= e_id r2) rows.
Proof.
  exists (sort_by id_le (filter (in_range start_date end_date) (expenses disk))).
  split; [|split].
  - assert (Hw : forall r,
      eval_where [DateBetween start_date end_date] r
      = in_range start_date end_date r).
    { intro r. unfold eval_where, in_range. cbn. now rewrite andb_true_r. }
    cbn [run_statement]. rewrite (filter_ext _ _ Hw). reflexivity.
  - apply sort_by_perm.
  - pose proof (sort_by_sorted id_le
                  (filter (in_range start_date end_date) (expenses disk))
                  id_le_total) as Hs.
    induction Hs as [|r l Hs IH Hhd]; constructor; auto.
    destruct Hhd as [|r' l' Hle]; constructor. unfold id_le in Hle. lia.
Qed.


Lemma filter_perm {A : Type} (f : A -> bool) (l l' : list A) :
  Permutation l l' -> Permutation (filter f l) (filter f l').
Proof.
  induction 1 as [|x l l' _ IH|x y l|l l' l'' _ IH1 _ IH2]; simpl.
  - constructor.
  - destruct (f x); [constructor|]; exact IH.
  - destruct (f x), (f y); try reflexivity. apply perm_swap.
  - now transitivity (filter f l').
Qed.

Lemma filter_below (i : Z) rows :
  (forall r, In r rows -> e_id r < i) ->
  filter (fun r => e_id r =? i) rows = [].
Proof.
  induction rows as [|a l IH]; simpl; intros H; [reflexivity|].
  destruct (Z.eqb_spec (e_id a) i) as [Heq|_].
  - specialize (H a (or_introl eq_refl)). lia.
  - apply IH. intros; apply H; auto.
Qed.

(** The cursor of the query of [list_expenses] after a successful
    [add_expense]: when the range contains the date, exactly one of its
    rows carries the reported id, that id is positive and the row holds
    the values that were passed. *)
Lemma add_then_select_cursor
  env date amount category subcategory note start_date end_date disk i disk' :
  add_expense env date amount category subcategory note disk
    = (ok_added i, disk') ->
  String.leb start_date date = true ->
  String.leb date end_date = true ->
  0 < i
  /\ exists rows,
       run_statement (SelectExpenses [DateBetween start_date end_date]) disk' =
         (Return (mkCursor 0 (-1)
                    (Some ["id"; "date"; "amount"; "category"; "subcategory";
                           "note"])
                    (map expense_tuple rows)), disk')
       /\ filter (fun r => e_id r =? i) rows =
          [mkExpense i date amount category subcategory note].
Proof.
  intros Hadd Hlo Hhi.
  destruct (add_expense_cases env date amount category subcategory note disk)
    as [[m Hm]|[Hroom Hok]]; [rewrite Hm in Hadd; discriminate|].
  rewrite Hok in Hadd. injection Hadd as <- <-.
  pose proof (max_rowid_nonneg (expenses disk)) as Hpos.
  split; [lia|].
  destruct (select_expenses_cursor start_date end_date
    (mkDatabase
       (expenses disk ++
        [mkExpense (Z.max (sqlite_sequence disk) (max_rowid (expenses disk)) + 1)
                   date amount category subcategory note])
       (Z.max (sqlite_sequence disk) (max_rowid (expenses disk)) + 1)))
    as (rows & Hcur & Hperm & _).
  exists rows. split; [exact Hcur|].
  apply Permutation_length_1_inv. symmetry.
  rewrite (filter_perm _ _ _ Hperm). cbn [expenses].
  rewrite !filter_app. cbn [filter]. unfold in_range at 2. cbn [e_date].
  rewrite Hlo, Hhi. cbn [andb filter e_id]. rewrite Z.eqb_refl.
  rewrite filter_below; [reflexivity|].
  intros r Hr. apply filter_In in Hr. destruct Hr as [Hr _].
  apply max_rowid_ge in Hr. lia.
Qed.

(** ** Further properties of the write operations *)

(** Every call has one of four outcomes: an error that leaves the file
    alone, an appended row, the update of the addressed rows, or their
    removal. *)
Lemma invoke_outcomes env c disk :
  (exists m, invoke env c disk = (error_dict m, disk))
  \/ (exists date amount category subcategory note,
        c = CallAdd date amount category subcategory note
        /\ Z.max (sqlite_sequence disk) (max_rowid (expenses disk)) < MAX_ROWID
        /\ invoke env c disk =
           (ok_added (Z.max (sqlite_sequence disk) (max_rowid (expenses disk)) + 1),
            mkDatabase
              (expenses disk ++
               [mkExpense
                  (Z.max (sqlite_sequence disk) (max_rowid (expenses disk)) + 1)
                  date amount category subcategory note])
              (Z.max (sqlite_sequence disk) (max_rowid (expenses disk)) + 1)))
  \/ (exists date category amount subcategory note,
        c = CallUpdate date category amount subcategory note
        /\ invoke env c disk =
           (ok_updated (count (selected date category subcategory) (expenses disk)),
            mkDatabase
              (map (update_row date category subcategory amount note)
                   (expenses disk))
              (sqlite_sequence disk)))
  \/ (exists date category subcategory,
        c = CallDelete date category subcategory
        /\ invoke env c disk =
           (ok_deleted (count (selected date category subcategory) (expenses disk)),
            mkDatabase
              (filter (fun r => negb (selected date category subcategory r))
                      (expenses disk))
              (sqlite_sequence disk))).
Proof.
  destruct c as [date amount category subcategory note
                |date category amount subcategory note
                |date category subcategory
                |start_date end_date
                |start_date end_date category]; cbn [invoke].
  - destruct (add_expense_cases env date amount category subcategory note disk)
      as [Herr|[Hroom Hok]]; [left; exact Herr|].
    right; left. exists date, amount, category, subcategory, note. auto.
  - destruct (update_expense_cases env date category amount subcategory note disk)
      as [Herr|Hok]; [left; exact Herr|].
    right; right; left. exists date, category, amount, subcategory, note.
    split; [reflexivity|]. rewrite Hok. apply update_expense_healthy.
  - destruct (delete_expense_cases env date category subcategory disk)
      as [Herr|Hok]; [left; exact Herr|].
    right; right; right. exists date, category, subcategory.
    split; [reflexivity|]. rewrite Hok. apply delete_expense_healthy.
  - left. unfold list_expenses. rewrite list_expenses_try_raises.
    eexists. reflexivity.
  - left. unfold summarize. rewrite summarize_try_raises.
    eexists. reflexivity.
Qed.


(** X2: the three write operations are all-or-nothing under any behaviour
    of the storage layer: a call either reports an error and leaves the
    file exactly as it was (also when the statement ran and only the commit
    failed), or does exactly what it does on a storage layer that does not
    fail. *)
Theorem writes_are_all_or_nothing env disk :
  (forall date amount category subcategory note,
      (exists m,
          add_expense env date amount category subcategory note disk =
          (Dict [("status", VStr "error"); ("message", VStr m)], disk))
      \/ add_expense env date amount category subcategory note disk =
         add_expense healthy date amount category subcategory note disk)
  /\ (forall date category amount subcategory note,
      (exists m,
          update_expense env date category amount subcategory note disk =
          (Dict [("status", VStr "error"); ("message", VStr m)], disk))
      \/ update_expense env date category amount subcategory note disk =
         update_expense healthy date category amount subcategory note disk)
  /\ (forall date category subcategory,
      (exists m,
          delete_expense env date category subcategory disk =
          (Dict [("status", VStr "error"); ("message", VStr m)], disk))
      \/ delete_expense env date category subcategory disk =
         delete_expense healthy date category subcategory disk).
Proof.
  split; [|split]; intros.
  - destruct (add_expense_cases env date amount category subcategory note disk)
      as [Herr|[Hroom Hadd]]; [left; exact Herr|].
    right. rewrite Hadd. symmetry. now apply add_expense_healthy.
  - apply update_expense_cases.
  - apply delete_expense_cases.
Qed.

(** X3: a call of any of the five tools changes the file only when it
    answers with status ok: if the file after the call differs from the
    file before, the answer is a dict whose status is "ok". *)
Theorem file_changes_only_with_status_ok env (c : @call real) disk :
  snd (invoke env c disk) <> disk ->
  status (fst (invoke env c disk)) = Some (VStr "ok").
Proof.
  intros Hchanged.
  destruct (invoke_outcomes env c disk)
    as [[m Hm]
       |[(date & amount & category & subcategory & note & _ & _ & Hok)
        |[(date & category & amount & subcategory & note & _ & Hok)
         |(date & category & subcategory & _ & Hok)]]];
    rewrite Hok || rewrite Hm in Hchanged; try rewrite Hok; try reflexivity.
  cbn in Hchanged. now contradiction Hchanged.
Qed.

(** ** How the write operations compose *)

(** An update changes neither the date, nor the category, nor the
    subcategory of a row, so it changes no selection. *)
Lemma selected_update_row date category subcategory amount note
      date' category' subcategory' r :
  selected date' category' subcategory'
           (update_row date category subcategory amount note r)
  = selected date' category' subcategory' r.
Proof.
  unfold update_row. now destruct (selected date category subcategory r).
Qed.

Lemma update_row_twice date category subcategory amount note r :
  update_row date category subcategory amount note
             (update_row date category subcategory amount note r)
  = update_row date category subcategory amount note r.
Proof.
  unfold update_row at 2 3.
  destruct (selected date category subcategory r) eqn:Hsel.
  - unfold update_row.
    assert (Hs : selected date category subcategory (updated amount note r)
                 = true) by exact Hsel.
    rewrite Hs. now destruct note.
  - unfold update_row. now rewrite Hsel.
Qed.

Lemma filter_map_same {A : Type} (p : A -> bool) (g : A -> A) (l : list A) :
  (forall x, p (g x) = p x) ->
  filter p (map g l) = map g (filter p l).
Proof.
  intros Hp. induction l as [|a l IH]; simpl; [reflexivity|].
  rewrite Hp. destruct (p a); simpl; now rewrite IH.
Qed.

Lemma count_update_row date category subcategory amount note
      date' category' subcategory' rows :
  count (selected date' category' subcategory')
        (map (update_row date category subcategory amount note) rows)
  = count (selected date' category' subcategory') rows.
Proof.
  unfold count. rewrite filter_map_same, length_map; [reflexivity|].
  intro r. apply selected_update_row.
Qed.

Lemma update_expense_rows date category amount subcategory note disk :
  update_expense healthy date category amount subcategory note disk =
  (ok_updated (count (selected date category subcategory) (expenses disk)),
   mkDatabase (map (update_row date category subcategory amount note)
                   (expenses disk))
              (sqlite_sequence disk)).
Proof. apply update_expense_healthy. Qed.

(** X4: [update_expense] is idempotent: repeating a call with the same
    arguments reports the same number of rows and leaves the file as the
    first call left it. *)
Theorem update_expense_twice date category amount subcategory note disk :
  update_expense healthy date category amount subcategory note
    (snd (update_expense healthy date category amount subcategory note disk))
  = update_expense healthy date category amount subcategory note disk.
Proof.
  rewrite !update_expense_rows. cbn [snd expenses sqlite_sequence].
  rewrite count_update_row, map_map. do 2 f_equal.
  apply map_ext. intro r. apply update_row_twice.
Qed.

Lemma filter_twice {A : Type} (p : A -> bool) (l : list A) :
  filter p (filter p l) = filter p l.
Proof.
  induction l as [|a l IH]; simpl; [reflexivity|].
  destruct (p a) eqn:Ha; simpl; rewrite ?Ha, IH; reflexivity.
Qed.

Lemma filter_complement {A : Type} (p : A -> bool) (l : list A) :
  filter p (filter (fun x => negb (p x)) l) = [].
Proof.
  induction l as [|a l IH]; simpl; [reflexivity|].
  destruct (p a) eqn:Ha; simpl; rewrite ?Ha; exact IH.
Qed.

(** X5: a second [delete_expense] with the same arguments finds nothing
    left: it answers ok with [deleted] 0 and leaves the file as the first
    call left it. *)
Theorem delete_expense_twice date category subcategory disk :
  delete_expense healthy date category subcategory
    (snd (delete_expense healthy date category subcategory disk))
  = (Dict [("status", VStr "ok"); ("deleted", VInt 0);
           ("message", VStr "Expense deleted successfully")],
     snd (delete_expense healthy date category subcategory disk)).
Proof.
  rewrite !delete_expense_healthy. cbn [snd expenses sqlite_sequence].
  unfold count. rewrite filter_complement. cbn [List.length Z.of_nat].
  unfold ok_deleted. do 2 f_equal.
  apply (filter_twice (fun r => negb (selected date category subcategory r))).
Qed.

(** X6: an update never changes which rows a delete addresses, and the two
    commute: deleting after an update reports the same number of rows as
    deleting before it, and leaves the table that updating after the delete
    leaves.  This holds for any two keys, equal or not. *)
Theorem update_and_delete_commute
  date category amount subcategory note date' category' subcategory' disk :
  fst (delete_expense healthy date' category' subcategory'
         (snd (update_expense healthy date category amount subcategory note
                              disk)))
  = fst (delete_expense healthy date' category' subcategory' disk)
  /\ snd (delete_expense healthy date' category' subcategory'
            (snd (update_expense healthy date category amount subcategory note
                                 disk)))
     = snd (update_expense healthy date category amount subcategory note
              (snd (delete_expense healthy date' category' subcategory' disk))).
Proof.
  repeat first [ rewrite delete_expense_healthy
               | rewrite update_expense_rows
               | progress cbn [fst snd expenses sqlite_sequence] ].
  rewrite count_update_row. split; [reflexivity|]. f_equal.
  apply filter_map_same. intro r. now rewrite selected_update_row.
Qed.

(** X7: deleting right after a successful add, by the date and category
    that were added (without a subcategory, or with the one that was
    added), removes the new row together with the older rows of that key:
    [deleted] is one more than the number of older rows addressed, the
    table is the old table without them, and [sqlite_sequence] keeps the id
    that was assigned, so that the id is not given out again. *)
Theorem add_then_delete
  env date amount category subcategory note disk i disk1 :
  add_expense env date amount category subcategory note disk
    = (ok_added i, disk1) ->
  delete_expense healthy date category None disk1 =
    (ok_deleted (count (selected date category None) (expenses disk) + 1),
     mkDatabase
       (filter (fun r => negb (selected date category None r)) (expenses disk))
       i)
  /\ delete_expense healthy date category (Some subcategory) disk1 =
       (ok_deleted
          (count (selected date category (Some subcategory)) (expenses disk) + 1),
        mkDatabase
          (filter (fun r => negb (selected date category (Some subcategory) r))
                  (expenses disk))
          i).
Proof.
  intros Hadd.
  destruct (add_expense_cases env date amount category subcategory note disk)
    as [[m Hm]|[Hroom Hok]]; [rewrite Hm in Hadd; discriminate|].
  rewrite Hok in Hadd. injection Hadd as <- <-.
  split; rewrite delete_expense_healthy; cbn [expenses sqlite_sequence];
    unfold count; rewrite !filter_app; cbn [filter];
    unfold selected at 2 4; cbn [e_date e_category e_subcategory];
    rewrite !String.eqb_refl; cbn [andb negb];
    rewrite length_app, app_nil_r, Nat2Z.inj_add; reflexivity.
Qed.

(** X8: [delete_expense] accounts for every row: the rows left and the
    number reported as deleted add up to the rows there were, the number
    deleted is not negative, and every row left was in the table before
    with the same content. *)
Theorem delete_expense_accounts_for_rows date category subcategory disk :
  exists n,
    fst (delete_expense healthy date category subcategory disk) =
      Dict [("status", VStr "ok"); ("deleted", VInt n);
            ("message", VStr "Expense deleted successfully")]
    /\ 0 <= n
    /\ Z.of_nat (List.length
         (expenses (snd (delete_expense healthy date category subcategory disk))))
       + n = Z.of_nat (List.length (expenses disk))
    /\ incl (expenses (snd (delete_expense healthy date category subcategory
                                           disk)))
            (expenses disk).
Proof.
  rewrite delete_expense_healthy. cbn [fst snd expenses].
  exists (count (selected date category subcategory) (expenses disk)).
  split; [reflexivity|]. unfold count. split; [lia|]. split.
  - pose proof (filter_length (selected date category subcategory)
                              (expenses disk)) as Hlen.
    lia.
  - intros r Hr. apply filter_In in Hr. tauto.
Qed.

Lemma filter_nothing {A : Type} (p : A -> bool) (l : list A) :
  (forall x, In x l -> p x = false) -> filter p l = [].
Proof.
  induction l as [|a l IH]; simpl; intros H; [reflexivity|].
  rewrite (H a) by auto. apply IH. intros; apply H; auto.
Qed.

Lemma selected_without_subcategory date category subcategory r :
  selected date category subcategory r = true ->
  selected date category None r = true.
Proof.
  unfold selected. intros H. apply andb_true_iff in H. destruct H as [H _].
  now rewrite H.
Qed.

(** X9: after a [delete_expense] without subcategory no row of that date
    and category is left, whatever its subcategory: a later update or
    delete on that date and category, with any subcategory or none, answers
    ok with a count of 0 and changes nothing. *)
Theorem delete_without_subcategory_clears_the_key
  date category subcategory amount note disk :
  update_expense healthy date category amount subcategory note
    (snd (delete_expense healthy date category None disk))
  = (Dict [("status", VStr "ok"); ("updated", VInt 0);
           ("message", VStr "Expense updated successfully")],
     snd (delete_expense healthy date category None disk))
  /\ delete_expense healthy date category subcategory
       (snd (delete_expense healthy date category None disk))
     = (Dict [("status", VStr "ok"); ("deleted", VInt 0);
              ("message", VStr "Expense deleted successfully")],
        snd (delete_expense healthy date category None disk)).
Proof.
  assert (Hnone : forall r,
    In r (filter (fun r => negb (selected date category None r))
                 (expenses disk)) ->
    selected date category subcategory r = false).
  { intros r Hr. apply filter_In in Hr. destruct Hr as [_ Hr].
    destruct (selected date category subcategory r) eqn:Hsel; [|reflexivity].
    apply selected_without_subcategory in Hsel. rewrite Hsel in Hr.
    discriminate Hr. }
  assert (Hcount :
    count (selected date category subcategory)
          (filter (fun r => negb (selected date category None r))
                  (expenses disk)) = 0).
  { unfold count. now rewrite (filter_nothing _ _ Hnone). }
  rewrite (delete_expense_healthy date category None disk).
  cbn [snd]. split.
  - rewrite update_expense_healthy. cbn [expenses sqlite_sequence].
    rewrite Hcount, map_unselected by exact Hnone. reflexivity.
  - rewrite delete_expense_healthy. cbn [expenses sqlite_sequence].
    rewrite Hcount, filter_unselected by exact Hnone. reflexivity.
Qed.

(** ** Invariants of the table along a run *)

Lemma ascending_snoc (l : list Z) (i : Z) :
  StronglySorted Z.lt l -> Forall (fun x => x < i) l ->
  StronglySorted Z.lt (l ++ [i]).
Proof.
  induction 1 as [|x l Hs IH Hx]; intros Hlt; simpl.
  - repeat constructor.
  - inversion Hlt; subst. constructor; [now apply IH|].
    apply Forall_app. split; [exact Hx|]. now repeat constructor.
Qed.

Lemma ascending_filter (f : expense -> bool) rows :
  StronglySorted Z.lt (map e_id rows) ->
  StronglySorted Z.lt (map e_id (filter f rows)).
Proof.
  induction rows as [|a l IH]; simpl; intros Hs; [constructor|].
  inversion Hs as [|x l' Hs' Hx]; subst.
  destruct (f a); [|now apply IH].
  simpl. constructor; [now apply IH|].
  rewrite Forall_forall in *. intros x Hin.
  apply in_map_iff in Hin. destruct Hin as (r & <- & Hr).
  apply filter_In in Hr. apply Hx, in_map, Hr.
Qed.

Lemma ascending_nodup (l : list Z) : StronglySorted Z.lt l -> NoDup l.
Proof.
  induction 1 as [|x l Hs IH Hx]; constructor; [|exact IH].
  intros Hin. rewrite Forall_forall in Hx. specialize (Hx x Hin). lia.
Qed.

Lemma max_rowid_le rows (b : Z) :
  0 <= b -> Forall (fun r => e_id r <= b) rows -> max_rowid rows <= b.
Proof.
  intros Hb. unfold max_rowid.
  induction 1 as [|a l Ha _ IH]; simpl; lia.
Qed.

(** The table of a file this program wrote: no id above
    [sqlite_sequence], ids strictly ascending and positive. *)
Lemma invoke_keeps_order env c disk :
  consistent disk /\ ascending disk /\
    Forall (fun r => 0 < e_id r) (expenses disk) ->
  consistent (snd (invoke env c disk)) /\ ascending (snd (invoke env c disk)) /\
    Forall (fun r => 0 < e_id r) (expenses (snd (invoke env c disk))).
Proof.
  intros (Hc & Ha & Hp).
  destruct (invoke env c disk) as [resp disk'] eqn:Hinv.
  destruct (invoke_step _ _ _ _ _ Hinv) as (Hcons & _ & _ & _).
  cbn [snd]. split; [now apply Hcons|].
  destruct (invoke_outcomes env c disk)
    as [[m Hm]
       |[(date & amount & category & subcategory & note & _ & _ & Hok)
        |[(date & category & amount & subcategory & note & _ & Hok)
         |(date & category & subcategory & _ & Hok)]]];
    rewrite Hinv in *.
  - injection Hm as _ ->. auto.
  - injection Hok as _ ->. unfold ascending. cbn [expenses]. split.
    + rewrite map_app. apply ascending_snoc; [exact Ha|].
      apply Forall_forall. intros x Hx. apply in_map_iff in Hx.
      destruct Hx as (r & <- & Hr). apply max_rowid_ge in Hr.
      cbn [e_id]. lia.
    + apply Forall_app. split; [exact Hp|]. repeat constructor. cbn [e_id].
      pose proof (max_rowid_nonneg (expenses disk)). lia.
  - injection Hok as _ ->. unfold ascending. cbn [expenses]. split.
    + unfold update_row. now rewrite map_id_updated.
    + apply Forall_map. eapply Forall_impl; [|exact Hp].
      intros r Hr. unfold update_row.
      now destruct (selected date category subcategory r).
  - injection Hok as _ ->. unfold ascending. cbn [expenses]. split.
    + now apply ascending_filter.
    + apply Forall_forall. intros r Hr. apply filter_In in Hr.
      rewrite Forall_forall in Hp. now apply Hp.
Qed.

Lemma run_keeps (P : database -> Prop) :
  (forall env c disk, P disk -> P (snd (invoke env c disk))) ->
  forall calls disk ev,
    P disk -> In ev (run calls disk) -> P (ev_before ev) /\ P (ev_after ev).
Proof.
  intros Hstep. induction calls as [|[env c] rest IH]; intros disk ev HP Hin.
  - destruct Hin.
  - cbn [run] in Hin. specialize (Hstep env c disk HP).
    destruct (invoke env c disk) as [resp disk'].
    destruct Hin as [<-|Hin]; [cbn; auto|]. now apply (IH disk').
Qed.

(** X10: along any run of calls, with any storage failures, from a new
    file or from a file whose table is already in that state, the table
    stays stored by strictly ascending id (so that insertion order and id
    order agree), no two rows share an id, every id is positive and none
    exceeds [sqlite_sequence]. *)
Theorem table_stays_ordered_by_id
  (env0 : storage) (file : option database) disk0
  (calls : list (storage * call)) (ev : event) :
  init_db env0 file = Return disk0 ->
  (forall db, file = Some db ->
     consistent db /\ ascending db /\
     Forall (fun r => 0 < e_id r) (expenses db)) ->
  In ev (run calls disk0) ->
  ascending (ev_after ev)
  /\ NoDup (map e_id (expenses (ev_after ev)))
  /\ Forall (fun r => 0 < e_id r) (expenses (ev_after ev))
  /\ consistent (ev_after ev).
Proof.
  intros Hinit Hfile Hin.
  assert (H0 : consistent disk0 /\ ascending disk0 /\
               Forall (fun r => 0 < e_id r) (expenses disk0)).
  { unfold init_db in Hinit.
    destruct (connect_error env0); [discriminate|].
    destruct (execute_error env0); [discriminate|].
    destruct (commit_error env0); [discriminate|].
    destruct file as [db|]; injection Hinit as <-.
    - now apply Hfile.
    - repeat split; constructor. }
  destruct (run_keeps _ invoke_keeps_order calls disk0 ev H0 Hin)
    as (_ & Hc & Ha & Hp).
  repeat split; auto. now apply ascending_nodup.
Qed.

(** One call moves [sqlite_sequence] by one exactly when it reports an id,
    and the id is then the new value. *)
Lemma invoke_counts env c disk resp disk' :
  consistent disk -> 0 <= sqlite_sequence disk ->
  invoke env c disk = (resp, disk') ->
  consistent disk'
  /\ sqlite_sequence disk' =
     sqlite_sequence disk +
     (if added (mkEvent env c disk resp disk') then 1 else 0)
  /\ forall i, assigned_id (mkEvent env c disk resp disk') = Some i ->
               i = sqlite_sequence disk + 1.
Proof.
  intros Hc Hpos Hinv.
  destruct (invoke_step _ _ _ _ _ Hinv) as (Hcons & _ & _ & _).
  split; [now apply Hcons|].
  assert (Htop : Z.max (sqlite_sequence disk) (max_rowid (expenses disk))
                 = sqlite_sequence disk).
  { pose proof (max_rowid_le _ _ Hpos Hc). lia. }
  destruct (invoke_outcomes env c disk)
    as [[m Hm]
       |[(date & amount & category & subcategory & note & -> & _ & Hok)
        |[(date & category & amount & subcategory & note & -> & Hok)
         |(date & category & subcategory & -> & Hok)]]];
    rewrite Hinv in *.
  - injection Hm as -> ->.
    destruct (unchanged_carries_over env c disk m) as [_ Hn].
    unfold added. rewrite Hn. split; [lia|discriminate].
  - injection Hok as -> ->. rewrite Htop. cbn. split; [reflexivity|].
    now intros i [= <-].
  - injection Hok as -> ->. cbn. split; [lia|discriminate].
  - injection Hok as -> ->. cbn. split; [lia|discriminate].
Qed.

Lemma run_counts calls : forall disk pre ev post,
  consistent disk -> 0 <= sqlite_sequence disk ->
  run calls disk = pre ++ ev :: post ->
  forall i, assigned_id ev = Some i ->
    i = sqlite_sequence disk + Z.of_nat (List.length (filter added pre)) + 1.
Proof.
  induction calls as [|[env c] rest IH]; intros disk pre ev post Hc Hpos Hrun.
  - destruct pre; discriminate.
  - cbn [run] in Hrun.
    destruct (invoke env c disk) as [resp disk'] eqn:Hinv.
    destruct (invoke_counts _ _ _ _ _ Hc Hpos Hinv) as (Hc' & Hseq & Hid).
    destruct pre as [|e0 pre'].
    + injection Hrun as <- _. intros i Hi. cbn. specialize (Hid i Hi). lia.
    + injection Hrun as <- Hrest. intros i Hi.
      assert (Hpos' : 0 <= sqlite_sequence disk')
        by (destruct (added _); lia).
      rewrite (IH disk' pre' ev post Hc' Hpos' Hrest i Hi), Hseq.
      cbn [filter]. destruct (added _); cbn [List.length]; lia.
Qed.

(** X11: on a new file the ids count the successful adds: in any run of
    calls, with any storage failures, an [add_expense] that reports an id
    reports one more than the number of earlier calls that reported one.
    Deletes, updates, reads and failed calls in between use up no id. *)
Theorem nth_successful_add_gets_id_n
  (env0 : storage) disk0 (calls : list (storage * call)) pre ev post i :
  init_db env0 None = Return disk0 ->
  run calls disk0 = pre ++ ev :: post ->
  assigned_id ev = Some i ->
  i = Z.of_nat (List.length (filter added pre)) + 1.
Proof.
  intros Hinit Hrun Hi.
  unfold init_db in Hinit.
  destruct (connect_error env0); [discriminate|].
  destruct (execute_error env0); [discriminate|].
  destruct (commit_error env0); [discriminate|].
  injection Hinit as <-.
  assert (Hc : consistent (mkDatabase (@nil (@expense real)) 0))
    by constructor.
  rewrite (run_counts calls _ pre ev post Hc (Z.le_refl 0) Hrun i Hi).
  cbn [sqlite_sequence]. lia.
Qed.

(** ** The test for a read-only storage *)





(** ** The queries of the read operations, in full *)

Lemma sort_by_ascending rows :
  StronglySorted Z.lt (map e_id rows) -> sort_by id_le rows = rows.
Proof.
  induction rows as [|a l IH]; simpl; intros Hs; [reflexivity|].
  inversion Hs as [|x l' Hs' Hx]; subst.
  rewrite IH by exact Hs'.
  destruct l as [|b l]; [reflexivity|]. simpl.
  inversion Hx; subst. unfold id_le.
  destruct (Z.leb_spec (e_id a) (e_id b)); [reflexivity|lia].
Qed.

Lemma sort_by_id_sorted rows :
  Sorted (fun r1 r2 => e_id r1 <= e_id r2) (sort_by id_le rows).
Proof.
  pose proof (sort_by_sorted id_le rows id_le_total) as Hs.
  induction Hs as [|r l Hs IH Hhd]; constructor; auto.
  destruct Hhd as [|r' l' Hle]; constructor. unfold id_le in Hle. lia.
Qed.

Lemma select_expenses_run start_date end_date disk :
  run_statement (SelectExpenses [DateBetween start_date end_date]) disk =
  (Return (mkCursor 0 (-1)
             (Some ["id"; "date"; "amount"; "category"; "subcategory"; "note"])
             (map expense_tuple
                (sort_by id_le
                   (filter (in_range start_date end_date) (expenses disk))))),
   disk).
Proof.
  assert (Hw : forall r,
    eval_where [DateBetween start_date end_date] r
    = in_range start_date end_date r).
  { intro r. unfold eval_where, in_range. cbn. now rewrite andb_true_r. }
  cbn [run_statement]. rewrite (filter_ext _ _ Hw). reflexivity.
Qed.

(** X13: the SELECT that [list_expenses] executes puts in its cursor the
    six column names and one tuple for each row of the table whose date
    lies in the inclusive range, compared as strings: exactly those rows,
    each once, by ascending id.  When the table is stored by ascending id,
    as this program keeps it, that is the order of the table. *)
Theorem list_query_selects_range_in_id_order start_date end_date disk :
  exists rows,
    run_statement (SelectExpenses [DateBetween start_date end_date]) disk =
      (Return (mkCursor 0 (-1)
                 (Some ["id"; "date"; "amount"; "category"; "subcategory";
                        "note"])
                 (map expense_tuple rows)), disk)
    /\ (forall r, In r rows <->
                  In r (expenses disk) /\
                  String.leb start_date (e_date r) = true /\
                  String.leb (e_date r) end_date = true)
    /\ Permutation rows (filter (in_range start_date end_date) (expenses disk))
    /\ Sorted (fun r1 r2 => e_id r1 <= e_id r2) rows
    /\ (ascending disk ->
        rows = filter (in_range start_date end_date) (expenses disk)).
Proof.
  exists (sort_by id_le (filter (in_range start_date end_date) (expenses disk))).
  pose proof (sort_by_perm id_le
                (filter (in_range start_date end_date) (expenses disk)))
    as Hperm.
  split; [apply select_expenses_run|].
  split; [|split; [exact Hperm|split]].
  - intro r. split.
    + intros Hr. apply (Permutation_in _ Hperm) in Hr.
      apply filter_In in Hr. unfold in_range in Hr.
      rewrite andb_true_iff in Hr. tauto.
    + intros (Hr & Hlo & Hhi).
      apply (Permutation_in _ (Permutation_sym Hperm)).
      apply filter_In. unfold in_range. now rewrite Hlo, Hhi.
  - apply sort_by_id_sorted.
  - intros Ha. apply sort_by_ascending. now apply ascending_filter.
Qed.


(** X15: after an [add_expense] that answered ok with id [i], the SELECT of
    [list_expenses] over any range that contains the date, compared as
    strings, finds the new row: the cursor holds the tuple of [i] and the
    five values that were passed, and no other tuple of a row with id
    [i]. *)
Theorem added_row_is_selected_once
  env date amount category subcategory note start_date end_date disk i disk' :
  add_expense env date amount category subcategory note disk
    = (ok_added i, disk') ->
  String.leb start_date date = true ->
  String.leb date end_date = true ->
  exists rows cur,
    run_statement (SelectExpenses [DateBetween start_date end_date]) disk'
      = (Return cur, disk')
    /\ result_set cur = map expense_tuple rows
    /\ filter (fun r => e_id r =? i) rows =
       [mkExpense i date amount category subcategory note]
    /\ In [VInt i; VStr date; VFloat amount; VStr category; VStr subcategory;
           VStr note] (result_set cur).
Proof.
  intros Hadd Hlo Hhi.
  destruct (add_then_select_cursor _ _ _ _ _ _ _ _ _ _ _ Hadd Hlo Hhi)
    as (_ & rows & Hcur & Hone).
  eexists rows, _. split; [exact Hcur|]. cbn [result_set].
  split; [reflexivity|]. split; [exact Hone|].
  assert (Hin : In (mkExpense i date amount category subcategory note) rows).
  { eapply (proj1 (filter_In (fun r => e_id r =? i) _ rows)).
    rewrite Hone. now left. }
  apply (in_map expense_tuple) in Hin. exact Hin.
Qed.

(** ** Restarting on an existing file *)

Lemma final_grows calls : forall disk,
  consistent disk ->
  consistent (final calls disk)
  /\ sqlite_sequence disk <= sqlite_sequence (final calls disk).
Proof.
  induction calls as [|[env c] rest IH]; intros disk Hc; cbn [final].
  - split; [exact Hc|lia].
  - destruct (invoke env c disk) as [resp disk'] eqn:Hinv.
    destruct (invoke_step _ _ _ _ _ Hinv) as (Hcons & Hseq & _ & _).
    cbn [snd]. destruct (IH disk' (Hcons Hc)) as [Hc' Hle].
    split; [exact Hc'|lia].
Qed.

Lemma assigned_within_final calls : forall disk ev i,
  consistent disk ->
  In ev (run calls disk) -> assigned_id ev = Some i ->
  sqlite_sequence disk < i <= sqlite_sequence (final calls disk).
Proof.
  induction calls as [|[env c] rest IH]; intros disk ev i Hc Hin Hi.
  - destruct Hin.
  - cbn [run final] in *.
    destruct (invoke env c disk) as [resp disk'] eqn:Hinv.
    destruct (invoke_step _ _ _ _ _ Hinv) as (Hcons & Hseq & Hid & _).
    cbn [snd]. destruct Hin as [<-|Hin].
    + destruct (Hid i Hi) as (-> & Hlt & _).
      destruct (final_grows rest disk' (Hcons Hc)) as [_ Hle]. lia.
    + specialize (IH disk' ev i (Hcons Hc) Hin Hi). lia.
Qed.

(** X16: ids survive a restart.  Start on a new file, make any calls, run
    [init_db] again on the file they left, and make further calls: the
    second [init_db] hands back the file unchanged, and every id that
    [add_expense] reports after the restart is larger than every id it
    reported before, whatever was deleted in between and whatever storage
    failures occurred. *)
Theorem ids_continue_after_restart
  (env0 env1 : storage) disk0 disk1
  (before after : list (storage * call)) (ev1 ev2 : event) (i1 i2 : Z) :
  init_db env0 None = Return disk0 ->
  init_db env1 (Some (final before disk0)) = Return disk1 ->
  In ev1 (run before disk0) -> assigned_id ev1 = Some i1 ->
  In ev2 (run after disk1) -> assigned_id ev2 = Some i2 ->
  disk1 = final before disk0 /\ i1 < i2.
Proof.
  intros Hinit0 Hinit1 Hev1 Hi1 Hev2 Hi2.
  assert (Hc0 : consistent disk0).
  { unfold init_db in Hinit0.
    destruct (connect_error env0); [discriminate|].
    destruct (execute_error env0); [discriminate|].
    destruct (commit_error env0); [discriminate|].
    injection Hinit0 as <-. constructor. }
  assert (Hsame : disk1 = final before disk0).
  { unfold init_db in Hinit1.
    destruct (connect_error env1); [discriminate|].
    destruct (execute_error env1); [discriminate|].
    destruct (commit_error env1); [discriminate|].
    now injection Hinit1 as <-. }
  split; [exact Hsame|]. subst disk1.
  destruct (final_grows before disk0 Hc0) as [Hc1 _].
  pose proof (assigned_within_final before disk0 ev1 i1 Hc0 Hev1 Hi1).
  pose proof (assigned_within_final after _ ev2 i2 Hc1 Hev2 Hi2).
  lia.
Qed.

End Properties.

(** * Instances on concrete inputs *)

(** Bulk update: without a subcategory all three rows of the date and
    category get the amount, and their notes stay. *)
Example update_all_three :
  update_expense healthy "2024-01-05" "Food" 7 None None three_meals =
  (ok_updated 3,
   mkDatabase [mkExpense 1 "2024-01-05" 7 "Food" "breakfast" "eggs";
               mkExpense 2 "2024-01-05" 7 "Food" "lunch" "soup";
               mkExpense 3 "2024-01-05" 7 "Food" "dinner" "fish"] 3).
Proof. reflexivity. Qed.

(** With a subcategory only the one row of that subcategory is updated. *)
Example update_one_of_three :
  update_expense healthy "2024-01-05" "Food" 7 (Some "lunch") (Some "stew")
                 three_meals =
  (ok_updated 1,
   mkDatabase [mkExpense 1 "2024-01-05" 10 "Food" "breakfast" "eggs";
               mkExpense 2 "2024-01-05" 7 "Food" "lunch" "stew";
               mkExpense 3 "2024-01-05" 30 "Food" "dinner" "fish"] 3).
Proof. reflexivity. Qed.

(** The query of [summarize] computes the totals per category in its
    cursor. *)
Example totals_in_cursor :
  fst (run_statement (SelectTotals [DateBetween "2024-01-01" "2024-01-31"])
                     ledger) =
  Return (mkCursor 0 (-1) (Some ["category"; "total_amount"])
            [[VStr "Food"; VFloat 15]; [VStr "Travel"; VFloat 20]]).
Proof. reflexivity. Qed.

(** The failing input of C4: a healthy storage layer and a table with rows
    in the range; the result is an error dict, not the rows. *)
Example list_expenses_on_ledger :
  list_expenses healthy "2024-01-01" "2024-12-31" ledger =
  (Dict [("status", VStr "error");
         ("message",
          VStr "Error listing expenses: 'coroutine' object is not iterable")],
   ledger).
Proof. reflexivity. Qed.

(** The failing input of C3. *)
Example summarize_on_ledger :
  summarize healthy "2024-01-01" "2024-12-31" None ledger =
  (Dict [("status", VStr "error");
         ("message",
          VStr "Error summarizing expenses: 'coroutine' object is not iterable")],
   ledger).
Proof. reflexivity. Qed.

(** The failing input of C1: the add succeeds with id 1, the listing over
    a range that contains the date reports an error. *)
Example add_then_list_on_fresh :
  add_expense healthy "2024-01-05" 10 "Food" "lunch" "" fresh =
    (ok_added 1,
     mkDatabase [mkExpense 1 "2024-01-05" 10 "Food" "lunch" ""] 1)
  /\ fst (list_expenses healthy "2024-01-01" "2024-12-31"
            (mkDatabase [mkExpense 1 "2024-01-05" 10 "Food" "lunch" ""] 1)) =
     Dict [("status", VStr "error");
           ("message",
            VStr "Error listing expenses: 'coroutine' object is not iterable")].
Proof. split; reflexivity. Qed.

(** C5, as stated, fails on [list_expenses] and [summarize]: the storage
    layer fails with a description that contains "readonly", and the
    message is the generic one of the operation, not the read-only one. *)
Lemma reads_do_not_single_out_readonly :
  fst (list_expenses_try readonly_storage "2024-01-01" "2024-12-31" ledger)
    = Raise "attempt to write a readonly database"
  /\ contains "readonly" (lower "attempt to write a readonly database") = true
  /\ fst (list_expenses readonly_storage "2024-01-01" "2024-12-31" ledger) =
       Dict [("status", VStr "error");
             ("message",
              VStr "Error listing expenses: attempt to write a readonly database")]
  /\ fst (list_expenses readonly_storage "2024-01-01" "2024-12-31" ledger) <>
       Dict [("status", VStr "error");
             ("message",
              VStr "Database is in read-only mode. Check file permissions.")]
  /\ fst (summarize readonly_storage "2024-01-01" "2024-12-31" None ledger) <>
       Dict [("status", VStr "error");
             ("message",
              VStr "Database is in read-only mode. Check file permissions.")].
Proof.
  repeat split; try reflexivity; cbn; intros H; discriminate H.
Qed.

(** ** Witnesses *)

Lemma update_expense_sets_amount_witness :
  count (selected "2024-02-01" "Food" None) (expenses ledger) = 0
  /\ update_expense healthy "2024-02-01" "Food" 7 None None ledger =
       (Dict [("status", VStr "ok"); ("updated", VInt 0);
              ("message", VStr "Expense updated successfully")], ledger).
Proof.
  split; [reflexivity|].
  apply (proj2 (proj2 (update_expense_sets_amount_on_selected_rows
                         "2024-02-01" "Food" 7 None None ledger))).
  reflexivity.
Defined.

Lemma delete_expense_removes_witness :
  count (selected "2024-02-01" "Food" None) (expenses ledger) = 0
  /\ delete_expense healthy "2024-02-01" "Food" None ledger =
       (Dict [("status", VStr "ok"); ("deleted", VInt 0);
              ("message", VStr "Expense deleted successfully")], ledger).
Proof.
  split; [reflexivity|].
  apply (proj2 (delete_expense_removes_selected_rows
                  "2024-02-01" "Food" None ledger)).
  reflexivity.
Defined.

Lemma failure_becomes_error_result_witness :
  (fst (add_expense_try readonly_storage "2024-01-07" 3 "Food" "" "" ledger)
     = Raise "attempt to write a readonly database"
   /\ add_expense readonly_storage "2024-01-07" 3 "Food" "" "" ledger =
        (Dict [("status", VStr "error");
               ("message",
                VStr "Database is in read-only mode. Check file permissions.")],
         ledger))
  /\ (fst (update_expense_try locked_storage "2024-01-05" "Food" 3 None None
                              ledger)
        = Raise "database is locked"
      /\ update_expense locked_storage "2024-01-05" "Food" 3 None None ledger =
           (Dict [("status", VStr "error");
                  ("message", VStr "Database error: database is locked")],
            ledger))
  /\ (fst (delete_expense_try locked_storage "2024-01-05" "Food" None ledger)
        = Raise "database is locked"
      /\ delete_expense locked_storage "2024-01-05" "Food" None ledger =
           (Dict [("status", VStr "error");
                  ("message", VStr "Database error: database is locked")],
            ledger))
  /\ (fst (list_expenses_try readonly_storage "2024-01-01" "2024-12-31" ledger)
        = Raise "attempt to write a readonly database"
      /\ list_expenses readonly_storage "2024-01-01" "2024-12-31" ledger =
           (Dict [("status", VStr "error");
                  ("message",
                   VStr "Error listing expenses: attempt to write a readonly database")],
            ledger))
  /\ (fst (summarize_try readonly_storage "2024-01-01" "2024-12-31" None ledger)
        = Raise "attempt to write a readonly database"
      /\ summarize readonly_storage "2024-01-01" "2024-12-31" None ledger =
           (Dict [("status", VStr "error");
                  ("message",
                   VStr "Error summarizing expenses: attempt to write a readonly database")],
            ledger)).
Proof.
  pose proof (failure_becomes_error_result readonly_storage
                "attempt to write a readonly database" ledger)
    as (Hadd & _ & _ & Hlist & Hsum).
  pose proof (failure_becomes_error_result locked_storage
                "database is locked" ledger)
    as (_ & Hupd & Hdel & _ & _).
  split; [|split; [|split; [|split]]]; (split; [reflexivity|]).
  - exact (Hadd "2024-01-07" 3 "Food" "" "" eq_refl).
  - exact (Hupd "2024-01-05" "Food" 3 None None eq_refl).
  - exact (Hdel "2024-01-05" "Food" None eq_refl).
  - exact (Hlist "2024-01-01" "2024-12-31" eq_refl).
  - exact (Hsum "2024-01-01" "2024-12-31" None eq_refl).
Defined.

Lemma assigned_ids_witness :
  init_db healthy None = Return fresh
  /\ run session fresh = [first_add; removal] ++ second_add :: []
  /\ assigned_id second_add = Some 2
  /\ (forall r, In r (expenses (ev_before second_add)) -> e_id r <> 2)
  /\ (forall ev' r, In ev' [first_add; removal] ->
                    In r (expenses (ev_before ev')) -> e_id r <> 2)
  /\ (forall ev' i', In ev' [first_add; removal] ->
                     assigned_id ev' = Some i' -> i' < 2)
  /\ ids_carried_over second_add.
Proof.
  split; [reflexivity|]. split; [reflexivity|]. split; [reflexivity|].
  destruct (assigned_ids_are_fresh_and_increasing
              healthy None fresh session eq_refl
              (fun db (E : None = Some db) =>
                 match E in (_ = o) return
                       match o with None => True | Some d => consistent d end
                 with eq_refl => I end)
              [first_add; removal] second_add [] eq_refl)
    as [Hfresh Hkeep].
  destruct (Hfresh 2 eq_refl) as (H1 & H2 & H3).
  split; [exact H1|]. split; [exact H2|]. split; [exact H3|exact Hkeep].
Defined.

(** ** Witnesses of the further properties *)


Lemma file_changes_witness :
  snd (invoke healthy (CallDelete "2024-01-03" "Travel" None) ledger) <> ledger
  /\ status (fst (invoke healthy (CallDelete "2024-01-03" "Travel" None) ledger))
     = Some (VStr "ok").
Proof.
  assert (Hchanged :
    snd (invoke healthy (CallDelete "2024-01-03" "Travel" None) ledger)
    <> ledger) by (cbn; discriminate).
  split; [exact Hchanged|].
  exact (file_changes_only_with_status_ok
           healthy (CallDelete "2024-01-03" "Travel" None) ledger Hchanged).
Defined.

Lemma add_then_delete_witness :
  add_expense healthy "2024-01-05" 3 "Food" "tea" "" ledger =
    (ok_added 4,
     mkDatabase [lunch; coffee; flight;
                 mkExpense 4 "2024-01-05" 3 "Food" "tea" ""] 4)
  /\ delete_expense healthy "2024-01-05" "Food" None
       (mkDatabase [lunch; coffee; flight;
                    mkExpense 4 "2024-01-05" 3 "Food" "tea" ""] 4) =
     (ok_deleted (count (selected "2024-01-05" "Food" None) (expenses ledger) + 1),
      mkDatabase
        (filter (fun r => negb (selected "2024-01-05" "Food" None r))
                (expenses ledger))
        4).
Proof.
  split; [reflexivity|].
  exact (proj1 (add_then_delete healthy "2024-01-05" 3 "Food" "tea" "" ledger 4
                  _ eq_refl)).
Defined.

Lemma table_stays_ordered_witness :
  init_db healthy None = Return fresh
  /\ In second_add (run session fresh)
  /\ ascending (ev_after second_add)
  /\ NoDup (map e_id (expenses (ev_after second_add)))
  /\ Forall (fun r => 0 < e_id r) (expenses (ev_after second_add))
  /\ consistent (ev_after second_add).
Proof.
  assert (Hin : In second_add (run session fresh))
    by (right; right; left; reflexivity).
  split; [reflexivity|]. split; [exact Hin|].
  exact (table_stays_ordered_by_id
           healthy None fresh session second_add eq_refl
           (fun db (E : None = Some db) =>
              match E in (_ = o) return
                    match o with
                    | None => True
                    | Some d =>
                        consistent d /\ ascending d /\
                        Forall (fun r => 0 < e_id r) (expenses d)
                    end
              with eq_refl => I end)
           Hin).
Defined.

Lemma nth_successful_add_witness :
  init_db healthy None = Return fresh
  /\ run bumpy_session fresh =
       firstn 4 (run bumpy_session fresh)
       ++ nth 4 (run bumpy_session fresh) second_add :: []
  /\ assigned_id (nth 4 (run bumpy_session fresh) second_add) = Some 2
  /\ 2 = Z.of_nat (List.length
                     (filter added (firstn 4 (run bumpy_session fresh)))) + 1.
Proof.
  split; [reflexivity|]. split; [reflexivity|]. split; [reflexivity|].
  exact (nth_successful_add_gets_id_n
           healthy fresh bumpy_session
           (firstn 4 (run bumpy_session fresh))
           (nth 4 (run bumpy_session fresh) second_add) [] 2
           eq_refl eq_refl eq_refl).
Defined.


Lemma added_row_is_selected_witness :
  add_expense healthy "2024-01-05" 10 "Food" "lunch" "" fresh =
    (ok_added 1, ev_after first_add)
  /\ String.leb "2024-01-01" "2024-01-05" = true
  /\ String.leb "2024-01-05" "2024-12-31" = true
  /\ exists rows cur,
       run_statement (SelectExpenses [DateBetween "2024-01-01" "2024-12-31"])
                     (ev_after first_add)
         = (Return cur, ev_after first_add)
       /\ result_set cur = map expense_tuple rows
       /\ filter (fun r => e_id r =? 1) rows =
          [mkExpense 1 "2024-01-05" 10 "Food" "lunch" ""]
       /\ In [VInt 1; VStr "2024-01-05"; VFloat 10; VStr "Food"; VStr "lunch";
              VStr ""] (result_set cur).
Proof.
  split; [reflexivity|]. split; [reflexivity|]. split; [reflexivity|].
  exact (added_row_is_selected_once
           healthy "2024-01-05" 10 "Food" "lunch" ""
           "2024-01-01" "2024-12-31" fresh 1 (ev_after first_add)
           eq_refl eq_refl eq_refl).
Defined.

Lemma ids_continue_witness :
  init_db healthy None = Return fresh
  /\ init_db healthy (Some (final session fresh)) = Return (final session fresh)
  /\ In second_add (run session fresh)
  /\ assigned_id second_add = Some 2
  /\ In (nth 4 (run bumpy_session (final session fresh)) second_add)
        (run bumpy_session (final session fresh))
  /\ assigned_id (nth 4 (run bumpy_session (final session fresh)) second_add)
     = Some 4
  /\ 2 < 4.
Proof.
  assert (Hin1 : In second_add (run session fresh))
    by (right; right; left; reflexivity).
  assert (Hin2 : In (nth 4 (run bumpy_session (final session fresh)) second_add)
                    (run bumpy_session (final session fresh)))
    by (do 4 right; left; reflexivity).
  split; [reflexivity|]. split; [reflexivity|]. split; [exact Hin1|].
  split; [reflexivity|]. split; [exact Hin2|]. split; [reflexivity|].
  exact (proj2 (ids_continue_after_restart
                  healthy healthy fresh (final session fresh)
                  session bumpy_session second_add
                  (nth 4 (run bumpy_session (final session fresh)) second_add)
                  2 4 eq_refl eq_refl Hin1 eq_refl Hin2 eq_refl)).
Defined.
